(** * Python-for-Deep-Learning: the hand-written XOR perceptron and the
      notebook corpus around it

    The development embeds the NumPy notebook that trains a 2-2-1 sigmoid
    network on XOR by hand (forward pass, delta rule, in-place updates,
    thresholded accuracy), the data sets of the TensorFlow notebook, and the
    statement skeleton of every notebook of the corpus.

    Arrays are lists of rows over the real numbers: the notebook's float64
    arithmetic is read as exact real arithmetic, except in [Float64], which
    runs the forward pass on binary64 values where the sigmoid saturates. *)

From Corelib Require Import PrimFloat.
From Stdlib Require Import String Reals Lra Lia ZArith Bool List.
Import ListNotations.
Open Scope R_scope.

(** ** NumPy array operations used by the notebook *)

Module Np.

Definition array := list (list R).
Definition iarray := list (list Z).
Definition barray := list (list bool).

Fixpoint zip_with {A B C : Type} (f : A -> B -> C)
    (u : list A) (v : list B) : list C :=
  match u, v with
  | a :: u', b :: v' => f a b :: zip_with f u' v'
  | _, _ => []
  end.

(** Broadcasting: an axis of length one is stretched to the other
    operand's length.  Shapes that NumPy rejects are outside the
    notebook; on them the model truncates to the shorter operand. *)
Definition stretch {A : Type} (n : nat) (l : list A) : list A :=
  match l with
  | [a] => repeat a n
  | _ => l
  end.

Definition broadcast1 {A B C : Type} (f : A -> B -> C)
    (u : list A) (v : list B) : list C :=
  let n := Nat.max (length u) (length v) in
  zip_with f (stretch n u) (stretch n v).

Definition broadcast {A B C : Type} (f : A -> B -> C)
    (M : list (list A)) (N : list (list B)) : list (list C) :=
  broadcast1 (broadcast1 f) M N.

(** [M + N], [M - N], [M * N] on arrays. *)
Definition add : array -> array -> array := broadcast Rplus.
Definition sub : array -> array -> array := broadcast Rminus.
Definition mul : array -> array -> array := broadcast Rmult.

(** [c + M], [c - M], [c * M], [c / M], [-M] with a Python scalar [c]. *)
Definition sadd (c : R) (M : array) : array := map (map (Rplus c)) M.
Definition ssub (c : R) (M : array) : array := map (map (Rminus c)) M.
Definition smul (c : R) (M : array) : array := map (map (Rmult c)) M.
Definition sdiv (c : R) (M : array) : array := map (map (Rdiv c)) M.
Definition neg (M : array) : array := map (map Ropp) M.

(** [np.exp], [np.square]. *)
Definition exp (M : array) : array := map (map Rtrigo_def.exp) M.
Definition square (M : array) : array := map (map (fun v => v * v)) M.

Definition ncols {A : Type} (M : list (list A)) : nat := length (hd [] M).
Definition column (j : nat) (M : array) : list R :=
  map (fun r => nth j r 0) M.

(** [M.T] *)
Definition T (M : array) : array :=
  map (fun j => column j M) (seq 0 (ncols M)).

Definition total (u : list R) : R := fold_right Rplus 0 u.
Definition vdot (u v : list R) : R := total (zip_with Rmult u v).

(** [np.dot(M, N)] on 2-D arrays. *)
Definition dot (M N : array) : array :=
  map (fun r => map (fun c => vdot r c) (T N)) M.

(** [np.sum(M, axis=0, keepdims=True)] *)
Definition sum_axis0 (M : array) : array :=
  [map (fun j => total (column j M)) (seq 0 (ncols M))].

Definition size {A : Type} (M : list (list A)) : nat := length (concat M).

(** [np.mean(M)] over all entries. *)
Definition mean (M : array) : R := total (concat M) / INR (size M).

(** An integer array used in float arithmetic. *)
Definition asfloat (M : iarray) : array := map (map IZR) M.

Definition geb (v c : R) : bool := if Rle_dec c v then true else false.

(** [M >= c] *)
Definition ge (M : array) (c : R) : barray := map (map (fun v => geb v c)) M.

(** [B == N] for a boolean and an integer array: the booleans are
    promoted to 0 and 1. *)
Definition eq_bool_int : barray -> iarray -> barray :=
  broadcast (fun b z => Z.eqb (Z.b2z b) z).

Definition b2r (b : bool) : R := if b then 1 else 0.

(** [np.mean(B)] on a boolean array. *)
Definition mean_bool (B : barray) : R := mean (map (map b2r) B).

(** [B.astype(int)] *)
Definition astype_int (B : barray) : iarray := map (map Z.b2z) B.

(** Shapes and entries, for stating properties. *)
Definition has_shape {A : Type} (r c : nat) (M : list (list A)) : Prop :=
  length M = r /\ Forall (fun row => length row = c) M.

Definition entry (M : array) (i j : nat) : R := nth j (nth i M []) 0.

Fixpoint set_nth {A : Type} (n : nat) (a : A) (l : list A) : list A :=
  match l, n with
  | [], _ => []
  | _ :: l', O => a :: l'
  | x :: l', S k => x :: set_nth k a l'
  end.

Definition set_entry (M : array) (i j : nat) (t : R) : array :=
  set_nth i (set_nth j t (nth i M [])) M.

Definition all_entries {A : Type} (P : A -> Prop) (M : list (list A)) : Prop :=
  Forall (Forall P) M.

End Np.

(** ** The NumPy notebook: a 2-2-1 sigmoid network trained by hand *)

Module XorNumpy.

(** [def sigmoid(x): return 1/(1 + np.exp(-x))] on one number, over
    the reals. *)
Definition sigmoid (x : R) : R := 1 / (1 + exp (- x)).

(** [def sigmoid_derivative(x): return x * (1 - x)] on one number. *)
Definition sigmoid_derivative (x : R) : R := x * (1 - x).

(** The same two functions as the notebook calls them, on arrays. *)
Definition sigmoid_arr (x : Np.array) : Np.array :=
  Np.sdiv 1 (Np.sadd 1 (Np.exp (Np.neg x))).

Definition sigmoid_derivative_arr (x : Np.array) : Np.array :=
  Np.mul x (Np.ssub 1 x).

(** Train data. *)
Definition X : Np.iarray := [[0; 0]; [0; 1]; [1; 0]; [1; 1]]%Z.
Definition y : Np.iarray := [[0]; [1]; [1]; [0]]%Z.

Definition input_size : nat := 2.
Definition hidden_size : nat := 2.
Definition output_size : nat := 1.

Definition learning_rate : R := 5 / 10.
Definition epochs : nat := Z.to_nat 10000.

Record weights := mkWeights
  { W1 : Np.array; b1 : Np.array; W2 : Np.array; b2 : Np.array }.

(** Weights of the notebook's shapes, entry by entry. *)
Definition literal_weights (w11 w12 w21 w22 b11 b12 v1 v2 c : R) : weights :=
  mkWeights [[w11; w12]; [w21; w22]] [[b11; b12]] [[v1]; [v2]] [[c]].

(** One such choice, for instantiating statements. *)
Definition w_sample : weights :=
  literal_weights 1 (-1) 2 0 0 1 1 (-2) (1 / 2).

(** The shapes given to [np.random.uniform]. *)
Definition well_shaped (w : weights) : Prop :=
  Np.has_shape input_size hidden_size (W1 w) /\
  Np.has_shape 1 hidden_size (b1 w) /\
  Np.has_shape hidden_size output_size (W2 w) /\
  Np.has_shape 1 output_size (b2 w).

Section Network.
(** The loop body reads the globals [X], [y] and [learning_rate]; the
    two arrays enter the arithmetic as floats. *)
Variables (X y : Np.array) (learning_rate : R).

(** Forward propagation. *)
Definition hidden_input (w : weights) : Np.array :=
  Np.add (Np.dot X (W1 w)) (b1 w).
Definition hidden_output (w : weights) : Np.array :=
  sigmoid_arr (hidden_input w).
Definition final_input (w : weights) : Np.array :=
  Np.add (Np.dot (hidden_output w) (W2 w)) (b2 w).
Definition final_output (w : weights) : Np.array :=
  sigmoid_arr (final_input w).

(** Loss (mean squared error). *)
Definition error (w : weights) : Np.array :=
  Np.sub y (final_output w).
Definition loss (w : weights) : R := Np.mean (Np.square (error w)).

(** Backpropagation. *)
Definition d_output (w : weights) : Np.array :=
  Np.mul (error w) (sigmoid_derivative_arr (final_output w)).
Definition W2_grad (w : weights) : Np.array :=
  Np.dot (Np.T (hidden_output w)) (d_output w).
Definition b2_grad (w : weights) : Np.array := Np.sum_axis0 (d_output w).
Definition d_hidden (w : weights) : Np.array :=
  Np.mul (Np.dot (d_output w) (Np.T (W2 w)))
         (sigmoid_derivative_arr (hidden_output w)).
Definition W1_grad (w : weights) : Np.array :=
  Np.dot (Np.T X) (d_hidden w).
Definition b1_grad (w : weights) : Np.array := Np.sum_axis0 (d_hidden w).

(** The four in-place updates; every gradient was computed from the
    weights as they were before the first of them. *)
Definition update (w : weights) : weights :=
  {| W2 := Np.add (W2 w) (Np.smul learning_rate (W2_grad w));
     b2 := Np.add (b2 w) (Np.smul learning_rate (b2_grad w));
     W1 := Np.add (W1 w) (Np.smul learning_rate (W1_grad w));
     b1 := Np.add (b1 w) (Np.smul learning_rate (b1_grad w)) |}.

(** What the loop leaves behind: the weights, the variable
    [final_output] of the last iteration, and the printed
    (epoch, loss) lines, the loss as computed, before [{loss:.5f}]
    rounds it to five decimals. *)
Record run := mkRun
  { weights_of : weights;
    final_output_var : Np.array;
    printed : list (nat * R) }.

Definition epoch_body (epoch : nat) (r : run) : run :=
  let w := weights_of r in
  {| weights_of := update w;
     final_output_var := final_output w;
     printed := if (epoch mod 1000 =? 0)%nat
                then printed r ++ [(epoch, loss w)]
                else printed r |}.

(** [for epoch in range(n): ...] *)
Definition training_loop (n : nat) (r : run) : run :=
  fold_left (fun r epoch => epoch_body epoch r) (seq 0 n) r.

(** Before the first epoch [final_output] is not bound; the record
    holds the empty array there. *)
Definition start (w : weights) : run :=
  {| weights_of := w; final_output_var := []; printed := [] |}.

(** One entry of one parameter array made a variable [t], for
    stating partial derivatives of the loss. *)
Inductive parameter := P_W1 | P_b1 | P_W2 | P_b2.

Definition get (q : parameter) (w : weights) : Np.array :=
  match q with
  | P_W1 => W1 w | P_b1 => b1 w | P_W2 => W2 w | P_b2 => b2 w
  end.

Definition put (q : parameter) (M : Np.array) (w : weights) : weights :=
  match q with
  | P_W1 => {| W1 := M; b1 := b1 w; W2 := W2 w; b2 := b2 w |}
  | P_b1 => {| W1 := W1 w; b1 := M; W2 := W2 w; b2 := b2 w |}
  | P_W2 => {| W1 := W1 w; b1 := b1 w; W2 := M; b2 := b2 w |}
  | P_b2 => {| W1 := W1 w; b1 := b1 w; W2 := W2 w; b2 := M |}
  end.

Definition grad (q : parameter) (w : weights) : Np.array :=
  match q with
  | P_W1 => W1_grad w | P_b1 => b1_grad w
  | P_W2 => W2_grad w | P_b2 => b2_grad w
  end.

Definition rows (q : parameter) : nat :=
  match q with
  | P_W1 => input_size | P_W2 => hidden_size | P_b1 | P_b2 => 1%nat
  end.

Definition cols (q : parameter) : nat :=
  match q with
  | P_W1 | P_b1 => hidden_size | P_W2 | P_b2 => output_size
  end.

Definition perturb (q : parameter) (i j : nat) (t : R) (w : weights)
    : weights :=
  put q (Np.set_entry (get q w) i j t) w.

(** [d] is the partial derivative of the loss with respect to entry
    [(i, j)] of parameter [q], at the weights [w]. *)
Definition partial_loss (q : parameter) (i j : nat) (w : weights) (d : R)
    : Prop :=
  derivable_pt_lim (fun t => loss (perturb q i j t w))
    (Np.entry (get q w) i j) d.

(** The forward pass as one expression. *)
Definition composed_forward (w : weights) : Np.array :=
  sigmoid_arr
    (Np.add (Np.dot (sigmoid_arr (Np.add (Np.dot X (W1 w)) (b1 w))) (W2 w))
            (b2 w)).

(** The value the forward pass gives one input row [x1, x2]. *)
Definition row_output (w : weights) (x1 x2 : R) : R :=
  let h1 := sigmoid (x1 * Np.entry (W1 w) 0 0 + x2 * Np.entry (W1 w) 1 0
                     + Np.entry (b1 w) 0 0) in
  let h2 := sigmoid (x1 * Np.entry (W1 w) 0 1 + x2 * Np.entry (W1 w) 1 1
                     + Np.entry (b1 w) 0 1) in
  sigmoid (h1 * Np.entry (W2 w) 0 0 + h2 * Np.entry (W2 w) 1 0
           + Np.entry (b2 w) 0 0).

End Network.

(** The notebook's integer arrays as the loop uses them. *)
Definition Xf : Np.array := Np.asfloat X.
Definition yf : Np.array := Np.asfloat y.

(** The training cell run from initial weights [w0]. *)
Definition run_notebook (w0 : weights) : run :=
  training_loop Xf yf learning_rate epochs (start w0).

(** Thresholding and the hand-rolled accuracy. *)
Definition predictions (final_output : Np.array) : Np.barray :=
  Np.ge final_output (5 / 10).

Definition accuracy (final_output : Np.array) (y : Np.iarray) : R :=
  Np.mean_bool (Np.eq_bool_int (predictions final_output) y).

Definition binary_predictions (final_output : Np.array) : Np.iarray :=
  Np.astype_int (Np.ge final_output (5 / 10)).

(** The predictions the notebook printed after its run. *)
Definition printed_final_output : Np.array :=
  [[1930908 / 100000000]; [98334504 / 100000000];
   [98334712 / 100000000]; [1718199 / 100000000]].

End XorNumpy.

(** ** scikit-learn's accuracy metric, as the notebook calls it *)

Module Sklearn.

(** [column_or_1d]: a single-column label array is flattened. *)
Definition column_or_1d (M : Np.iarray) : list Z := concat M.

(** [accuracy_score(y_true, y_pred)] with the default arguments: the
    fraction of positions at which the two flattened label arrays are
    equal.  The function belongs to the library, not to the repository;
    this is its documented behaviour on label arrays of equal length
    (the library raises on unequal lengths, the model truncates). *)
Definition accuracy_score (y_true y_pred : Np.iarray) : R :=
  let score := Np.zip_with Z.eqb (column_or_1d y_true) (column_or_1d y_pred) in
  Np.total (map Np.b2r score) / INR (length score).

End Sklearn.

(** ** The data sets on the four binary input pairs *)

Module AnnTensorflow.

(** First data cell of the ANN notebook ([dtype=np.float32]; the entries
    are given as written). *)
Definition X_train_data : Np.iarray := [[0; 0]; [0; 1]; [1; 0]; [1; 1]]%Z.
Definition y_train_data : Np.iarray := [[0]; [1]; [0]; [0]]%Z.

(** The cell that defines [XORModel] assigns both names again. *)
Definition X_train_data_xor : Np.iarray := [[0; 0]; [0; 1]; [1; 0]; [1; 1]]%Z.
Definition y_train_data_xor : Np.iarray := [[0]; [1]; [1]; [0]]%Z.

End AnnTensorflow.

Module Datasets.

Definition four_pairs : Np.iarray := [[0; 0]; [0; 1]; [1; 0]; [1; 1]]%Z.

(** The exclusive-or of the two components of an input pair, as a
    one-entry label row. *)
Definition xor_label (pair : list Z) : list Z :=
  [Z.lxor (nth 0 pair 0%Z) (nth 1 pair 0%Z)].

Fixpoint row_eqb (u v : list Z) : bool :=
  match u, v with
  | [], [] => true
  | a :: u', b :: v' => Z.eqb a b && row_eqb u' v'
  | _, _ => false
  end.

Fixpoint array_eqb (M N : Np.iarray) : bool :=
  match M, N with
  | [], [] => true
  | r :: M', s :: N' => row_eqb r s && array_eqb M' N'
  | _, _ => false
  end.

(** A data set: inputs and target labels. *)
Definition labelled_with_xor (d : Np.iarray * Np.iarray) : bool :=
  array_eqb (snd d) (map xor_label (fst d)).

(** Every data set of the corpus whose inputs are the four binary
    pairs, in source order. *)
Definition on_four_pairs : list (Np.iarray * Np.iarray) :=
  [ (XorNumpy.X, XorNumpy.y);
    (AnnTensorflow.X_train_data, AnnTensorflow.y_train_data);
    (AnnTensorflow.X_train_data_xor, AnnTensorflow.y_train_data_xor) ].

End Datasets.

(** ** The statement skeleton of the notebooks *)

Module Corpus.
Open Scope string_scope.

(** A statement, reduced to its kind, the name it binds and the
    callables its expression invokes, in source order.  A method called
    on a freshly built object is named [Constructor.method]. *)
#[local] Unset Elimination Schemes.
Inductive stmt : Type :=
| Import
| FunctionDef (name : string) (body : list stmt)
| ClassDef (name base : string) (body : list stmt)
| Assign (target : string) (calls : list string)
| Expr (calls : list string)
| PrintCall (args : list string)
| For (var : string) (range : Z) (body : list stmt)
| With (context : string) (body : list stmt)
| If (body : list stmt)
| Return (calls : list string).
#[local] Set Elimination Schemes.

Definition cell := list stmt.
Record notebook := mkNotebook { title : string; cells : list cell }.

(** The NumPy notebook (hand-written XOR network). *)
Definition xor_numpy : notebook :=
  mkNotebook "xor_numpy"
  [ [ Import;
      FunctionDef "sigmoid" [Return ["np.exp"]];
      FunctionDef "sigmoid_derivative" [Return []];
      Assign "X" ["np.array"];
      Assign "y" ["np.array"];
      Expr ["np.random.seed"];
      Assign "input_size" [];
      Assign "hidden_size" [];
      Assign "output_size" [];
      Assign "W1" ["np.random.uniform"];
      Assign "b1" ["np.random.uniform"];
      Assign "W2" ["np.random.uniform"];
      Assign "b2" ["np.random.uniform"] ];
    [ Assign "learning_rate" [];
      Assign "epochs" [] ];
    [ For "epoch" 10000
        [ Assign "hidden_input" ["np.dot"];
          Assign "hidden_output" ["sigmoid"];
          Assign "final_input" ["np.dot"];
          Assign "final_output" ["sigmoid"];
          Assign "error" [];
          Assign "loss" ["np.mean"; "np.square"];
          Assign "d_output" ["sigmoid_derivative"];
          Assign "W2_grad" ["np.dot"];
          Assign "b2_grad" ["np.sum"];
          Assign "d_hidden" ["np.dot"; "sigmoid_derivative"];
          Assign "W1_grad" ["np.dot"];
          Assign "b1_grad" ["np.sum"];
          Assign "W2" [];
          Assign "b2" [];
          Assign "W1" [];
          Assign "b1" [];
          If [PrintCall ["epoch"; "loss"]] ] ];
    [ PrintCall [];
      PrintCall ["final_output"] ];
    [ Assign "predictions" [];
      Assign "accuracy" ["np.mean"];
      PrintCall ["accuracy"] ];
    [ Import;
      Assign "binary_predictions" ["astype"];
      Assign "accuracy" ["accuracy_score"];
      PrintCall ["accuracy"] ];
    [] ].

Definition conv_block : list stmt :=
  [ Expr ["model.add"; "layers.Conv2D"];
    Expr ["model.add"; "layers.BatchNormalization"];
    Expr ["model.add"; "layers.Conv2D"];
    Expr ["model.add"; "layers.BatchNormalization"];
    Expr ["model.add"; "layers.MaxPooling2D"];
    Expr ["model.add"; "layers.Dropout"] ].

(** The convolutional classifier on CIFAR-10. *)
Definition cnn : notebook :=
  mkNotebook "cnn"
  [ [ Import; Import ];
    [ FunctionDef "create_cnn_models"
        ([Assign "model" ["models.Sequential"]]
         ++ conv_block ++ conv_block ++ conv_block ++
         [ Expr ["model.add"; "layers.Flatten"];
           Expr ["model.add"; "layers.Dense"];
           Expr ["model.add"; "layers.BatchNormalization"];
           Expr ["model.add"; "layers.Dropout"];
           Expr ["model.add"; "layers.Dense"];
           Return [] ])%list;
      Assign "model" ["create_cnn_models"];
      Expr ["model.summary"] ];
    [ Import; Import ];
    [ Assign "train_images, train_labels, test_images, test_labels"
        ["cifar10.load_data"];
      Assign "train_images" ["train_images.astype"];
      Assign "test_images" ["test_images.astype"];
      Assign "train_labels" ["to_categorical"];
      Assign "test_labels" ["to_categorical"];
      Expr ["model.compile"];
      Expr ["model.fit"] ];
    [ Expr ["model.save"] ];
    [ Assign "model" ["tf.keras.models.load_model"] ];
    [ Expr ["tf.saved_model.save"] ];
    [] ].

Definition imdb_load : list stmt :=
  [ Assign "max_features" [];
    Assign "max_len" [];
    Assign "X_train, y_train, X_test, y_test" ["imdb.load_data"];
    Assign "X_train" ["sequence.pad_sequences"];
    Assign "X_test" ["sequence.pad_sequences"] ].

Definition recurrent_model (layer : string) : list stmt :=
  [ Assign "model" ["models.Sequential"];
    Expr ["model.add"; "layers.Embedding"];
    Expr ["model.add"; layer];
    Expr ["model.add"; "layers.Dense"];
    Expr ["model.summary"] ].

Definition compile_fit : list stmt :=
  [ Expr ["model.compile"]; Expr ["model.fit"] ].

Definition evaluate_print : list stmt :=
  [ Assign "test_loss, test_acc" ["model.evaluate"]; PrintCall ["test_acc"] ].

(** The recurrent (SimpleRNN, then LSTM) sentiment classifiers. *)
Definition rnn : notebook :=
  mkNotebook "rnn"
  [ [ Import; Import; Import ];
    imdb_load;
    recurrent_model "layers.SimpleRNN";
    compile_fit;
    evaluate_print;
    (imdb_load ++ recurrent_model "layers.LSTM" ++ compile_fit
      ++ evaluate_print)%list;
    [] ].

Definition tape_forward : list stmt :=
  [ Assign "z1" ["tf.add"; "tf.matmul"];
    Assign "a1" ["tf.nn.sigmoid"];
    Assign "z2" ["tf.add"; "tf.matmul"];
    Assign "a2" ["tf.nn.sigmoid"];
    Assign "cost" ["tf.reduce_mean"; "tf.square"] ].

(** The TensorFlow ANN notebook: a hand-taken gradient step, then the
    [XORModel] class with its own epoch loop. *)
Definition ann : notebook :=
  mkNotebook "ann"
  [ [ Import; Import; Import ];
    [ Assign "X_train_data" ["np.array"];
      Assign "y_train_data" ["np.array"] ];
    [ Expr [] ];
    [ Expr [] ];
    [ Assign "n_input" [];
      Assign "n_hidden" [];
      Assign "n_output" [] ];
    [ Assign "X" ["tf.Variable"; "tf.random.normal"];
      Assign "y" ["tf.Variable"; "tf.random.normal"] ];
    [ Assign "w1" ["tf.Variable"; "tf.random.normal"];
      Assign "b1" ["tf.Variable"; "tf.random.normal"];
      Assign "w2" ["tf.Variable"; "tf.random.normal"];
      Assign "b2" ["tf.Variable"; "tf.random.normal"] ];
    [ Assign "optimizer" ["tf.keras.optimizers.SGD"];
      With "tf.GradientTape" tape_forward;
      Assign "gradients" ["tape.gradient"];
      Expr ["optimizer.apply_gradients"; "zip"] ];
    [ Import; Import; Import;
      Assign "X_train_data" ["np.array"];
      Assign "y_train_data" ["np.array"];
      ClassDef "XORModel" "tf.keras.Model"
        [ FunctionDef "__init__"
            [ Expr ["super.__init__"];
              Assign "self.hidden" ["tf.keras.layers.Dense"];
              Assign "self.output_layer" ["tf.keras.layers.Dense"] ];
          FunctionDef "call"
            [ Assign "x" ["self.hidden"];
              Return ["self.output_layer"] ] ];
      Assign "model" ["XORModel"];
      Assign "optimizer" ["tf.keras.optimizers.SGD"];
      Assign "loss_fn" ["tf.keras.losses.MeanSquaredError"];
      For "epoch" 1000
        [ With "tf.GradientTape"
            [ Assign "predictions" ["model"];
              Assign "loss" ["loss_fn"] ];
          Assign "gradients" ["tape.gradient"];
          Expr ["optimizer.apply_gradients"; "zip"];
          If [PrintCall ["epoch"; "loss.numpy"]] ];
      Assign "X_test" ["np.array"];
      Assign "y_test" ["np.array"];
      Assign "y_pred" ["model"; "numpy"];
      PrintCall ["y_pred"];
      PrintCall ["y_test"];
      Expr ["plt.scatter"];
      Expr ["plt.title"];
      Expr ["plt.colorbar"];
      Expr ["plt.show"] ];
    [] ].

(** Hierarchical clustering of synthetic points. *)
Definition hierarchical : notebook :=
  mkNotebook "hierarchical"
  [ [ Import; Import; Import; Import ];
    [ Expr ["np.random.seed"];
      Assign "X" ["np.random.randn"] ];
    [ Assign "clustering"
        ["AgglomerativeClustering"; "AgglomerativeClustering.fit"];
      PrintCall ["clustering.labels_"] ];
    [ Assign "linked" ["linkage"];
      Expr ["dendrogram"];
      Expr ["plt.xlabel"];
      Expr ["plt.ylabel"];
      Expr ["plt.title"];
      Expr ["plt.show"] ];
    [] ].

(** The dense sentiment classifier on IMDB. *)
Definition dnn : notebook :=
  mkNotebook "dnn"
  [ [ Import; Import; Import; Import ];
    [ Assign "max_features" [];
      Assign "max_len" [];
      Assign "X_train, y_train, X_test, y_test" ["imdb.load_data"];
      Assign "X_train" ["pad_sequences"];
      Assign "X_test" ["pad_sequences"] ];
    [ Assign "model" ["Sequential"];
      Expr ["model.add"; "Embedding"];
      Expr ["model.add"; "Flatten"];
      Expr ["model.add"; "Dense"];
      Expr ["model.add"; "Dense"];
      Expr ["model.add"; "Dense"] ];
    [ Expr ["model.compile"] ];
    [ PrintCall ["X_train.shape"];
      PrintCall ["y_train.shape"] ];
    [ Import;
      PrintCall ["np.unique"] ];
    [ Expr ["model.fit"];
      Assign "loss, accuracy" ["model.evaluate"];
      PrintCall ["accuracy"] ];
    [] ].

(** The decision-tree classifier on Iris. *)
Definition decision_trees : notebook :=
  mkNotebook "decision_trees"
  [ [ Import; Import; Import; Import; Import ];
    [ Assign "iris" ["load_iris"];
      Assign "X" [];
      Assign "y" [] ];
    [ Expr [] ];
    [ Expr [] ];
    [ Assign "X_train, X_test, y_train, y_test" ["train_test_split"] ];
    [ Assign "clf" ["DecisionTreeClassifier"];
      Expr ["clf.fit"] ];
    [ Assign "y_pred" ["clf.predict"];
      Expr [] ];
    [ Assign "accuracy" ["accuracy_score"];
      PrintCall ["accuracy"] ];
    [ Assign "dot_data" ["export_graphviz"];
      Assign "graph" ["graphviz.Source"];
      Expr ["graph.render"] ];
    [ Import;
      Assign "cm" ["confusion_matrix"];
      PrintCall [];
      PrintCall ["cm"] ];
    [ Import;
      PrintCall ["classification_report"] ];
    [ Import;
      PrintCall ["np.unique"] ];
    [ Import; Import;
      Assign "auc_score" ["roc_auc_score"; "clf.predict_proba"];
      PrintCall ["auc_score"] ];
    [] ].

Definition corpus : list notebook :=
  [xor_numpy; cnn; rnn; ann; hierarchical; dnn; decision_trees].

(** *** Reading the skeleton *)

Definition mem (s : string) (l : list string) : bool :=
  existsb (String.eqb s) l.

Definition any_in (names calls : list string) : bool :=
  existsb (fun c => mem c names) calls.

(** A loop written in the notebook, at any depth. *)
Fixpoint has_for (s : stmt) : bool :=
  match s with
  | For _ _ _ => true
  | FunctionDef _ body | ClassDef _ _ body | With _ body | If body =>
      existsb has_for body
  | _ => false
  end.

(** A class defined in the notebook, at any depth. *)
Fixpoint has_class (s : stmt) : bool :=
  match s with
  | ClassDef _ _ _ => true
  | FunctionDef _ body | For _ _ body | With _ body | If body =>
      existsb has_class body
  | _ => false
  end.

Definition statements (nb : notebook) : list stmt := concat (cells nb).

Definition local_loop (nb : notebook) : bool :=
  existsb has_for (statements nb).
Definition local_class (nb : notebook) : bool :=
  existsb has_class (statements nb).

(** The phases of the pipeline the specification describes. *)
Inductive phase := LoadData | BuildModel | FitModel | PrintMetric.

Definition phase_eqb (a b : phase) : bool :=
  match a, b with
  | LoadData, LoadData | BuildModel, BuildModel | FitModel, FitModel
  | PrintMetric, PrintMetric => true
  | _, _ => false
  end.

Definition loaders : list string :=
  ["np.array"; "np.random.randn"; "cifar10.load_data"; "imdb.load_data";
   "load_iris"].
Definition builders : list string :=
  ["models.Sequential"; "Sequential"; "model.compile";
   "DecisionTreeClassifier"; "AgglomerativeClustering"].
Definition trainers : list string :=
  ["model.fit"; "clf.fit"; "AgglomerativeClustering.fit"].
Definition metrics : list string :=
  ["accuracy"; "test_acc"; "loss"; "cm"; "classification_report";
   "auc_score"].

Definition call_phase (c : string) : list phase :=
  ((if mem c loaders then [LoadData] else []) ++
   (if mem c builders then [BuildModel] else []) ++
   (if mem c trainers then [FitModel] else []))%list.

(** The functions a notebook defines at top level, with their bodies. *)
Definition local_defs (nb : notebook) : list (string * list stmt) :=
  flat_map (fun s => match s with
                     | FunctionDef name body => [(name, body)]
                     | _ => []
                     end) (statements nb).

Definition body_of (defs : list (string * list stmt)) (c : string)
    : list stmt :=
  match find (fun d => String.eqb (fst d) c) defs with
  | Some d => snd d
  | None => []
  end.

(** The phases of a statement taken by itself. *)
Definition direct_phases (s : stmt) : list phase :=
  match s with
  | Assign _ calls | Expr calls => flat_map call_phase calls
  | PrintCall args => if any_in metrics args then [PrintMetric] else []
  | _ => []
  end.

(** A call goes through its own phase and, when it calls a function of
    the notebook, through the phases of that function's body. *)
Definition call_phases (defs : list (string * list stmt)) (c : string)
    : list phase :=
  (call_phase c ++ flat_map direct_phases (body_of defs c))%list.

(** The phases a top-level statement goes through, in order. *)
Definition stmt_phases (defs : list (string * list stmt)) (s : stmt)
    : list phase :=
  match s with
  | Assign _ calls | Expr calls => flat_map (call_phases defs) calls
  | PrintCall args => if any_in metrics args then [PrintMetric] else []
  | _ => []
  end.

Definition phases (nb : notebook) : list phase :=
  flat_map (stmt_phases (local_defs nb)) (statements nb).

(** [wanted] occurs in [seen] in this order, other phases in between
    allowed. *)
Fixpoint in_order (wanted seen : list phase) : bool :=
  match wanted, seen with
  | [], _ => true
  | _ :: _, [] => false
  | a :: wanted', b :: seen' =>
      if phase_eqb a b then in_order wanted' seen'
      else in_order wanted seen'
  end.

Definition calls_library_training (nb : notebook) : bool :=
  existsb (phase_eqb FitModel) (phases nb).

(** Load, build, library training, metric print, and no epoch loop of
    the notebook's own. *)
Definition follows_pipeline (nb : notebook) : bool :=
  in_order [LoadData; BuildModel; FitModel; PrintMetric] (phases nb)
  && negb (local_loop nb).

(** No control flow and no data structure of the notebook's own. *)
Definition library_calls_only (nb : notebook) : bool :=
  negb (local_loop nb) && negb (local_class nb).

Definition titles (l : list notebook) : list string := map title l.

End Corpus.

(** ** Reading the training loop as a whole *)

Module Training.
Import XorNumpy.

(** The weights after [n] passes through the four updates. *)
Definition after (X y : Np.array) (rate : R) (n : nat) (w : weights)
    : weights :=
  Nat.iter n (update X y rate) w.

(** The epochs of [range(n)] at which [epoch % 1000 == 0]. *)
Definition print_epochs (n : nat) : list nat :=
  filter (fun epoch => (epoch mod 1000 =? 0)%nat) (seq 0 n).

(** The squared length of the four gradient arrays taken together. *)
Definition sum_squares (M : Np.array) : R := Np.total (concat (Np.square M)).

Definition grad_norm2 (X y : Np.array) (w : weights) : R :=
  sum_squares (W1_grad X y w) + sum_squares (b1_grad X y w)
  + sum_squares (W2_grad X y w) + sum_squares (b2_grad X y w).

(** The two hidden units carry the same weights. *)
Definition symmetric_hidden (w : weights) : Prop :=
  Np.entry (W1 w) 0 0 = Np.entry (W1 w) 0 1 /\
  Np.entry (W1 w) 1 0 = Np.entry (W1 w) 1 1 /\
  Np.entry (b1 w) 0 0 = Np.entry (b1 w) 0 1 /\
  Np.entry (W2 w) 0 0 = Np.entry (W2 w) 1 0.

(** Weights that are all zero, in place of the random draw. *)
Definition zero_weights : weights := literal_weights 0 0 0 0 0 0 0 0 0.

(** Two output arrays for instantiating statements. *)
Definition p_sample : Np.array := [[2 / 10]; [7 / 10]; [5 / 10]; [9 / 10]].

(** Weights with two equal hidden units at which the gradients do not
    vanish. *)
Definition w_symmetric : weights := literal_weights 0 0 0 0 0 0 1 1 0.

End Training.

(** ** The forward pass on float64 values *)

Module Float64.

Definition array := list (list float).

(** [np.exp] on a float64, at the arguments where IEEE arithmetic fixes
    its value whatever the accuracy of the library: it overflows to [inf]
    from 710 on, underflows to 0 from -746 down, and is 1 at 0 (of either
    sign).  Elsewhere the model gives no value. *)
Definition exp (x : float) : option float :=
  if PrimFloat.leb 710 x then Some infinity
  else if PrimFloat.leb x (-746) then Some 0%float
  else if PrimFloat.eqb x 0 then Some 1%float
  else None.

(** [def sigmoid(x): return 1/(1 + np.exp(-x))] *)
Definition sigmoid (x : float) : option float :=
  match exp (PrimFloat.opp x) with
  | Some e => Some (PrimFloat.div 1 (PrimFloat.add 1 e))
  | None => None
  end.

Fixpoint all_some {A : Type} (l : list (option A)) : option (list A) :=
  match l with
  | [] => Some []
  | Some a :: l' =>
      match all_some l' with
      | Some r => Some (a :: r)
      | None => None
      end
  | None :: _ => None
  end.

Definition sigmoid_arr (M : array) : option array :=
  all_some (map (fun r => all_some (map sigmoid r)) M).

Definition column (j : nat) (M : array) : list float :=
  map (fun r => nth j r 0%float) M.

Definition T (M : array) : array :=
  map (fun j => column j M) (seq 0 (Np.ncols M)).

(** Products summed from the first on; on the values used below every
    sum is exact, so no other order gives another result. *)
Definition vdot (u v : list float) : float :=
  fold_left PrimFloat.add (Np.zip_with PrimFloat.mul u v) 0%float.

Definition dot (M N : array) : array :=
  map (fun r => map (fun c => vdot r c) (T N)) M.

Definition add : array -> array -> array := Np.broadcast PrimFloat.add.
Definition sub : array -> array -> array := Np.broadcast PrimFloat.sub.

(** The notebook's [X] and [y] as they enter float arithmetic. *)
Definition X : array :=
  [[0%float; 0%float]; [0%float; 1%float];
   [1%float; 0%float]; [1%float; 1%float]].
Definition y : array := [[0%float]; [1%float]; [1%float]; [0%float]].

Record weights := mkWeights
  { W1 : array; b1 : array; W2 : array; b2 : array }.

(** Forward propagation and the error, lines as in the loop body. *)
Definition hidden_input (w : weights) : array :=
  add (dot X (W1 w)) (b1 w).
Definition hidden_output (w : weights) : option array :=
  sigmoid_arr (hidden_input w).
Definition final_input (w : weights) : option array :=
  match hidden_output w with
  | Some h => Some (add (dot h (W2 w)) (b2 w))
  | None => None
  end.
Definition final_output (w : weights) : option array :=
  match final_input w with
  | Some z => sigmoid_arr z
  | None => None
  end.
Definition error (w : weights) : option array :=
  match final_output w with
  | Some o => Some (sub y o)
  | None => None
  end.


End Float64.

(** ** Derivatives of real functions, in pointwise form *)

Lemma D_ext (f g : R -> R) (x l : R) :
  (forall t, f t = g t) -> derivable_pt_lim f x l -> derivable_pt_lim g x l.
Proof.
  intros E H. exact (derivable_pt_lim_ext f g x l E H).
Qed.

Lemma D_val (f : R -> R) (x l l' : R) :
  derivable_pt_lim f x l -> l = l' -> derivable_pt_lim f x l'.
Proof. now intros H <-. Qed.

Lemma D_const (c x : R) : derivable_pt_lim (fun _ => c) x 0.
Proof. apply (derivable_pt_lim_const c x). Qed.

Lemma D_id (x : R) : derivable_pt_lim (fun t => t) x 1.
Proof. apply (derivable_pt_lim_id x). Qed.

Lemma D_plus (f g : R -> R) (x df dg : R) :
  derivable_pt_lim f x df -> derivable_pt_lim g x dg ->
  derivable_pt_lim (fun t => f t + g t) x (df + dg).
Proof. intros Hf Hg. apply (derivable_pt_lim_plus f g x df dg Hf Hg). Qed.

Lemma D_opp (f : R -> R) (x df : R) :
  derivable_pt_lim f x df -> derivable_pt_lim (fun t => - f t) x (- df).
Proof. intros Hf. apply (derivable_pt_lim_opp f x df Hf). Qed.

Lemma D_minus (f g : R -> R) (x df dg : R) :
  derivable_pt_lim f x df -> derivable_pt_lim g x dg ->
  derivable_pt_lim (fun t => f t - g t) x (df - dg).
Proof. intros Hf Hg. apply (derivable_pt_lim_minus f g x df dg Hf Hg). Qed.

Lemma D_mult (f g : R -> R) (x df dg : R) :
  derivable_pt_lim f x df -> derivable_pt_lim g x dg ->
  derivable_pt_lim (fun t => f t * g t) x (df * g x + f x * dg).
Proof. intros Hf Hg. apply (derivable_pt_lim_mult f g x df dg Hf Hg). Qed.

Lemma D_div_const (f : R -> R) (c x df : R) :
  derivable_pt_lim f x df -> derivable_pt_lim (fun t => f t / c) x (df / c).
Proof.
  intros Hf. unfold Rdiv.
  eapply D_val; [apply (D_mult f (fun _ => / c) x df 0 Hf (D_const _ _)) | ring].
Qed.

Lemma D_comp (f g : R -> R) (x df dg : R) :
  derivable_pt_lim f x df -> derivable_pt_lim g (f x) dg ->
  derivable_pt_lim (fun t => g (f t)) x (dg * df).
Proof. intros Hf Hg. apply (derivable_pt_lim_comp f g x df dg Hf Hg). Qed.

(** ** The sigmoid *)

Module SigmoidFacts.
Import XorNumpy.

Lemma denominator_pos (x : R) : 0 < 1 + exp (- x).
Proof. pose proof (exp_pos (- x)). lra. Qed.

Lemma sigmoid_pos (x : R) : 0 < sigmoid x.
Proof.
  unfold sigmoid. apply Rdiv_lt_0_compat; [lra | apply denominator_pos].
Qed.

Lemma sigmoid_lt_1 (x : R) : sigmoid x < 1.
Proof.
  unfold sigmoid. pose proof (exp_pos (- x)) as He.
  apply (Rmult_lt_reg_r (1 + exp (- x))); [lra |].
  unfold Rdiv. rewrite Rmult_assoc, Rinv_l by lra. lra.
Qed.

Lemma sigmoid_0 : sigmoid 0 = 1 / 2.
Proof. unfold sigmoid. rewrite Ropp_0, exp_0. lra. Qed.

(** The derivative of the sigmoid, written with the sigmoid itself. *)
Lemma D_sigmoid (x : R) :
  derivable_pt_lim sigmoid x (sigmoid x * (1 - sigmoid x)).
Proof.
  pose proof (denominator_pos x) as Hd.
  assert (Hden : derivable_pt_lim (fun t => 1 + exp (- t)) x
                   (0 + exp (- x) * - 1)).
  { apply D_plus; [apply D_const |].
    apply (D_comp (fun t => - t) exp); [apply D_opp, D_id |].
    apply derivable_pt_lim_exp. }
  pose proof (derivable_pt_lim_div (fun _ => 1) (fun t => 1 + exp (- t))
                x 0 _ (D_const 1 x) Hden) as Hq.
  eapply D_val.
  - eapply D_ext; [| apply Hq; lra]. intro t. reflexivity.
  - unfold sigmoid, Rsqr. field. lra.
Qed.

Lemma D_sigmoid_comp (f : R -> R) (x df : R) :
  derivable_pt_lim f x df ->
  derivable_pt_lim (fun t => sigmoid (f t)) x
    (sigmoid_derivative (sigmoid (f x)) * df).
Proof. intros Hf. apply (D_comp f sigmoid); [exact Hf | apply D_sigmoid]. Qed.

End SigmoidFacts.

(** ** Arrays *)

Module ArrayFacts.
Import XorNumpy.

Lemma stretch_same {A : Type} (u : list A) : Np.stretch (length u) u = u.
Proof. destruct u as [| a [| b u]]; reflexivity. Qed.

Lemma zip_with_map_r {A B C : Type} (f : A -> B -> C) (g : A -> B)
    (u : list A) :
  Np.zip_with f u (map g u) = map (fun a => f a (g a)) u.
Proof. induction u as [| a u IH]; simpl; [reflexivity | now rewrite IH]. Qed.

Lemma broadcast1_map_r {A B C : Type} (f : A -> B -> C) (g : A -> B)
    (u : list A) :
  Np.broadcast1 f u (map g u) = map (fun a => f a (g a)) u.
Proof.
  unfold Np.broadcast1. rewrite length_map, Nat.max_id, stretch_same.
  replace (Np.stretch (length u) (map g u)) with (map g u)
    by (rewrite <- (length_map g u) at 1; now rewrite stretch_same).
  apply zip_with_map_r.
Qed.

Lemma broadcast_map_r {A B C : Type} (f : A -> B -> C) (g : A -> B)
    (M : list (list A)) :
  Np.broadcast f M (map (map g) M) = map (map (fun a => f a (g a))) M.
Proof.
  unfold Np.broadcast. rewrite broadcast1_map_r.
  apply map_ext. intro r. apply broadcast1_map_r.
Qed.

(** The array versions of the two activation helpers act entry by
    entry. *)
Lemma sigmoid_arr_map (M : Np.array) : sigmoid_arr M = map (map sigmoid) M.
Proof.
  unfold sigmoid_arr, Np.sdiv, Np.sadd, Np.exp, Np.neg.
  rewrite !map_map. apply map_ext. intro r. rewrite !map_map. reflexivity.
Qed.

Lemma sigmoid_derivative_arr_map (M : Np.array) :
  sigmoid_derivative_arr M = map (map sigmoid_derivative) M.
Proof.
  unfold sigmoid_derivative_arr, Np.mul, Np.ssub.
  rewrite (broadcast_map_r Rmult (Rminus 1)). reflexivity.
Qed.

(** Broadcasting keeps a property of the entries. *)
Lemma Forall_stretch {A : Type} (P : A -> Prop) (n : nat) (u : list A) :
  Forall P u -> Forall P (Np.stretch n u).
Proof.
  intros H. destruct u as [| a [| b u]]; simpl; try assumption.
  inversion H; subst. clear H. induction n; simpl; constructor; assumption.
Qed.

Lemma Forall_zip_with {A B C : Type} (f : A -> B -> C)
    (P : A -> Prop) (Q : B -> Prop) (S : C -> Prop) :
  (forall a b, P a -> Q b -> S (f a b)) ->
  forall u v, Forall P u -> Forall Q v -> Forall S (Np.zip_with f u v).
Proof.
  intros Hf u. induction u as [| a u IH]; intros v Hu Hv; simpl.
  - constructor.
  - destruct v as [| b v]; [constructor |].
    inversion Hu; inversion Hv; subst. constructor; auto.
Qed.

Lemma Forall_broadcast1 {A B C : Type} (f : A -> B -> C)
    (P : A -> Prop) (Q : B -> Prop) (S : C -> Prop) :
  (forall a b, P a -> Q b -> S (f a b)) ->
  forall u v, Forall P u -> Forall Q v -> Forall S (Np.broadcast1 f u v).
Proof.
  intros Hf u v Hu Hv. unfold Np.broadcast1.
  apply (Forall_zip_with f P Q S Hf); now apply Forall_stretch.
Qed.

Lemma all_entries_broadcast {A B C : Type} (f : A -> B -> C)
    (P : A -> Prop) (Q : B -> Prop) (S : C -> Prop) :
  (forall a b, P a -> Q b -> S (f a b)) ->
  forall M N, Np.all_entries P M -> Np.all_entries Q N ->
              Np.all_entries S (Np.broadcast f M N).
Proof.
  intros Hf M N HM HN. unfold Np.all_entries, Np.broadcast in *.
  apply (Forall_broadcast1 _ (Forall P) (Forall Q) (Forall S)); try assumption.
  intros u v. now apply Forall_broadcast1.
Qed.

Lemma all_entries_map {A B : Type} (g : A -> B) (S : B -> Prop)
    (M : list (list A)) :
  (forall a, S (g a)) -> Np.all_entries S (map (map g) M).
Proof.
  intros Hg. unfold Np.all_entries.
  apply Forall_forall. intros r Hr. apply in_map_iff in Hr as [r' [<- _]].
  apply Forall_forall. intros b Hb. apply in_map_iff in Hb as [a [<- _]].
  apply Hg.
Qed.

(** Arrays of the four shapes the notebook allocates. *)
Lemma shape_2_2 {A : Type} (M : list (list A)) :
  Np.has_shape 2 2 M -> exists a b c d, M = [[a; b]; [c; d]].
Proof.
  intros [Hl Hr]. destruct M as [| r1 [| r2 [| r3 M]]]; try discriminate.
  inversion Hr as [| ? ? H1 Hr']; subst. inversion Hr' as [| ? ? H2 _]; subst.
  destruct r1 as [| a [| b [| ? ?]]]; try discriminate.
  destruct r2 as [| c [| d [| ? ?]]]; try discriminate.
  now exists a, b, c, d.
Qed.

Lemma shape_1_2 {A : Type} (M : list (list A)) :
  Np.has_shape 1 2 M -> exists a b, M = [[a; b]].
Proof.
  intros [Hl Hr]. destruct M as [| r1 [| r2 M]]; try discriminate.
  inversion Hr as [| ? ? H1 _]; subst.
  destruct r1 as [| a [| b [| ? ?]]]; try discriminate.
  now exists a, b.
Qed.

Lemma shape_2_1 {A : Type} (M : list (list A)) :
  Np.has_shape 2 1 M -> exists a b, M = [[a]; [b]].
Proof.
  intros [Hl Hr]. destruct M as [| r1 [| r2 [| r3 M]]]; try discriminate.
  inversion Hr as [| ? ? H1 Hr']; subst. inversion Hr' as [| ? ? H2 _]; subst.
  destruct r1 as [| a [| ? ?]]; try discriminate.
  destruct r2 as [| b [| ? ?]]; try discriminate.
  now exists a, b.
Qed.

Lemma shape_1_1 {A : Type} (M : list (list A)) :
  Np.has_shape 1 1 M -> exists a, M = [[a]].
Proof.
  intros [Hl Hr]. destruct M as [| r1 [| r2 M]]; try discriminate.
  inversion Hr as [| ? ? H1 _]; subst.
  destruct r1 as [| a [| ? ?]]; try discriminate.
  now exists a.
Qed.

Lemma shape_4_1 {A : Type} (M : list (list A)) :
  Np.has_shape 4 1 M -> exists a b c d, M = [[a]; [b]; [c]; [d]].
Proof.
  intros [Hl Hr].
  destruct M as [| r1 [| r2 [| r3 [| r4 [| r5 M]]]]]; try discriminate.
  inversion Hr as [| ? ? H1 Hr1]; subst.
  inversion Hr1 as [| ? ? H2 Hr2]; subst.
  inversion Hr2 as [| ? ? H3 Hr3]; subst.
  inversion Hr3 as [| ? ? H4 _]; subst.
  destruct r1 as [| a [| ? ?]]; try discriminate.
  destruct r2 as [| b [| ? ?]]; try discriminate.
  destruct r3 as [| c [| ? ?]]; try discriminate.
  destruct r4 as [| d [| ? ?]]; try discriminate.
  now exists a, b, c, d.
Qed.

Lemma zip_with_repeat_r {A B C : Type} (f : A -> B -> C) (b : B)
    (u : list A) :
  forall n, (length u <= n)%nat ->
            Np.zip_with f u (repeat b n) = map (fun a => f a b) u.
Proof.
  induction u as [| a u IH]; intros n Hn; simpl; [reflexivity |].
  destruct n as [| n]; simpl in *; [lia |].
  rewrite IH by lia. reflexivity.
Qed.

(** Adding a one-row array adds that row to every row. *)
Lemma broadcast1_row {A B C : Type} (f : A -> B -> C) (b : B)
    (u : list A) :
  Np.broadcast1 f u [b] = map (fun a => f a b) u.
Proof.
  unfold Np.broadcast1. destruct u as [| a1 [| a2 u]]; try reflexivity.
  cbn [length Np.stretch]. rewrite Nat.max_l by (simpl; lia).
  apply zip_with_repeat_r. reflexivity.
Qed.

Lemma Forall2_map_self {A B : Type} (S : A -> B -> Prop) (g : A -> B)
    (u : list A) :
  (forall a, S a (g a)) -> Forall2 S u (map g u).
Proof. intros Hg. induction u; simpl; constructor; auto. Qed.

Lemma well_shaped_literal (w : weights) :
  well_shaped w ->
  exists w11 w12 w21 w22 b11 b12 v1 v2 c,
    w = literal_weights w11 w12 w21 w22 b11 b12 v1 v2 c.
Proof.
  destruct w as [M1 B1 M2 B2]. unfold well_shaped; simpl.
  intros (H1 & H2 & H3 & H4).
  apply shape_2_2 in H1 as (w11 & w12 & w21 & w22 & ->).
  apply shape_1_2 in H2 as (b11 & b12 & ->).
  apply shape_2_1 in H3 as (v1 & v2 & ->).
  apply shape_1_1 in H4 as (c & ->).
  now exists w11, w12, w21, w22, b11, b12, v1, v2, c.
Qed.

End ArrayFacts.

(** ** The loop body on weights of the notebook's shapes *)

Module Backprop.
Import XorNumpy ArrayFacts SigmoidFacts.

(** Differentiation of an expression in [t] built from sums, products,
    quotients by constants and sigmoids. *)
Ltac differentiate :=
  lazymatch goal with
  | |- derivable_pt_lim (fun _ => ?c) _ _ => apply D_const
  | |- derivable_pt_lim (fun t => t) _ _ => apply D_id
  | |- derivable_pt_lim (fun t => @?f t + @?g t) _ _ =>
      eapply (D_plus f g); differentiate
  | |- derivable_pt_lim (fun t => @?f t - @?g t) _ _ =>
      eapply (D_minus f g); differentiate
  | |- derivable_pt_lim (fun t => @?f t * @?g t) _ _ =>
      eapply (D_mult f g); differentiate
  | |- derivable_pt_lim (fun t => @?f t / ?c) _ _ =>
      eapply (D_div_const f c); differentiate
  | |- derivable_pt_lim (fun t => sigmoid (@?f t)) _ _ =>
      eapply (D_sigmoid_comp f); differentiate
  end.

(** Evaluation of the array operations on arrays of known shape. *)
Ltac np_eval :=
  cbv [Xf yf XorNumpy.X XorNumpy.y W1 W2 b1 b2 literal_weights
       get put grad perturb rows cols
       input_size hidden_size output_size
       Np.mean Np.square Np.sub Np.add Np.mul Np.smul
       Np.dot Np.asfloat Np.broadcast Np.broadcast1 Np.stretch Np.zip_with
       Np.T Np.column Np.ncols Np.vdot Np.total Np.size Np.sum_axis0
       Np.entry Np.set_entry Np.set_nth
       map length hd seq nth fold_right concat app repeat Nat.max].

Ltac unfold_network :=
  unfold partial_loss; cbv [get put grad perturb literal_weights];
  unfold update, loss, W1_grad, b1_grad, W2_grad, b2_grad,
    d_hidden, d_output, error, final_output, final_input,
    hidden_output, hidden_input;
  cbv [W1 W2 b1 b2].

Ltac entrywise := rewrite ?sigmoid_arr_map, ?sigmoid_derivative_arr_map.

Ltac partial_derivative :=
  unfold_network;
  eapply D_val;
  [ eapply D_ext;
    [ intro t; symmetry; entrywise; np_eval; reflexivity
    | differentiate ]
  | entrywise; np_eval; cbv beta; unfold sigmoid_derivative;
    replace (INR 4) with 4 by (simpl; ring); field ].

Ltac entry_update :=
  unfold_network; entrywise; np_eval; unfold sigmoid_derivative; field.

Lemma delta_rule_literal (rate w11 w12 w21 w22 b11 b12 v1 v2 c : R)
    (q : parameter) (i j : nat) :
  (i < rows q)%nat -> (j < cols q)%nat ->
  partial_loss Xf yf q i j (literal_weights w11 w12 w21 w22 b11 b12 v1 v2 c)
    (- Np.entry
         (grad Xf yf q (literal_weights w11 w12 w21 w22 b11 b12 v1 v2 c))
         i j / 2) /\
  Np.entry
    (get q (update Xf yf rate
              (literal_weights w11 w12 w21 w22 b11 b12 v1 v2 c))) i j
  = Np.entry (get q (literal_weights w11 w12 w21 w22 b11 b12 v1 v2 c)) i j
    + rate * Np.entry
               (grad Xf yf q
                  (literal_weights w11 w12 w21 w22 b11 b12 v1 v2 c)) i j.
Proof.
  intros Hi Hj.
  destruct q; cbv [rows cols input_size hidden_size output_size] in Hi, Hj;
    destruct i as [| [| i]]; try lia;
    destruct j as [| [| j]]; try lia;
    (split; [partial_derivative | entry_update]).
Qed.

Lemma delta_rule (rate : R) (w : weights) (q : parameter) (i j : nat) :
  well_shaped w -> (i < rows q)%nat -> (j < cols q)%nat ->
  partial_loss Xf yf q i j w (- Np.entry (grad Xf yf q w) i j / 2) /\
  Np.entry (get q (update Xf yf rate w)) i j =
    Np.entry (get q w) i j + rate * Np.entry (grad Xf yf q w) i j.
Proof.
  intros Hw Hi Hj.
  apply well_shaped_literal in Hw
    as (w11 & w12 & w21 & w22 & b11 & b12 & v1 & v2 & c & ->).
  now apply delta_rule_literal.
Qed.

(** The updates keep the shapes. *)
Lemma update_well_shaped (rate : R) (w : weights) :
  well_shaped w -> well_shaped (update Xf yf rate w).
Proof.
  intros Hw.
  apply well_shaped_literal in Hw
    as (w11 & w12 & w21 & w22 & b11 & b12 & v1 & v2 & c & ->).
  unfold well_shaped, Np.has_shape.
  unfold_network. entrywise. np_eval.
  repeat split; repeat constructor.
Qed.

Lemma training_loop_S (X y : Np.array) (rate : R) (n : nat) (r : run) :
  training_loop X y rate (S n) r
  = epoch_body X y rate n (training_loop X y rate n r).
Proof.
  unfold training_loop. rewrite seq_S, fold_left_app. reflexivity.
Qed.

Lemma training_loop_well_shaped (rate : R) (n : nat) (w0 : weights) :
  well_shaped w0 ->
  well_shaped (weights_of (training_loop Xf yf rate n (start w0))).
Proof.
  intros Hw. induction n as [| n IH].
  - exact Hw.
  - rewrite training_loop_S. simpl. now apply update_well_shaped.
Qed.

(** After at least one iteration the variable [final_output] holds the
    forward pass on the weights the last iteration started from. *)
Lemma final_output_var_S (X y : Np.array) (rate : R) (n : nat) (r : run) :
  final_output_var (training_loop X y rate (S n) r)
  = final_output X (weights_of (training_loop X y rate n r)).
Proof. rewrite training_loop_S. reflexivity. Qed.

End Backprop.

(** ** Claims about the hand-written network *)

Module Claims.
Import XorNumpy ArrayFacts SigmoidFacts Backprop.

(** Claim C1.  In every iteration of the training loop, started from
    weights of the notebook's shapes, every entry of [W1_grad],
    [b1_grad], [W2_grad] and [b2_grad] is minus twice the partial
    derivative of the mean-squared-error loss with respect to the
    matching entry of [W1], [b1], [W2], [b2], in exact real arithmetic;
    hence the update [theta += rate * theta_grad] moves that entry by
    [2 * rate] times the partial derivative, downhill. *)
Theorem delta_rule_is_gradient_descent
    (rate : R) (n : nat) (w0 : weights) (q : parameter) (i j : nat) :
  well_shaped w0 -> (i < rows q)%nat -> (j < cols q)%nat ->
  exists d : R,
    partial_loss Xf yf q i j
      (weights_of (training_loop Xf yf rate n (start w0))) d /\
    Np.entry (grad Xf yf q
                (weights_of (training_loop Xf yf rate n (start w0)))) i j
      = -2 * d /\
    Np.entry (get q
                (weights_of (training_loop Xf yf rate (S n) (start w0)))) i j
      = Np.entry (get q
                    (weights_of (training_loop Xf yf rate n (start w0)))) i j
        - (2 * rate) * d.
Proof.
  intros Hw Hi Hj.
  pose proof (training_loop_well_shaped rate n w0 Hw) as Hn.
  destruct (delta_rule rate _ q i j Hn Hi Hj) as [Hd Hu].
  eexists. split; [exact Hd |]. split; [field |].
  rewrite training_loop_S. cbn [weights_of epoch_body].
  rewrite Hu. field.
Qed.

Lemma delta_rule_is_gradient_descent_witness :
  well_shaped w_sample /\
  exists d : R,
    partial_loss Xf yf P_W1 1 0
      (weights_of (training_loop Xf yf learning_rate 1 (start w_sample))) d /\
    Np.entry (grad Xf yf P_W1
                (weights_of
                   (training_loop Xf yf learning_rate 1 (start w_sample))))
             1 0
      = -2 * d /\
    Np.entry (get P_W1
                (weights_of
                   (training_loop Xf yf learning_rate 2 (start w_sample))))
             1 0
      = Np.entry (get P_W1
                    (weights_of
                       (training_loop Xf yf learning_rate 1
                          (start w_sample)))) 1 0
        - (2 * learning_rate) * d.
Proof.
  assert (Hw : well_shaped w_sample).
  { unfold well_shaped, Np.has_shape. simpl. repeat split; repeat constructor. }
  split; [exact Hw |].
  apply (delta_rule_is_gradient_descent learning_rate 1 w_sample P_W1 1 0 Hw);
    cbv [rows cols input_size hidden_size]; lia.
Defined.

(** Claim C2.  For weights of the notebook's shapes and every input
    array with two columns, the prediction is
    [sigmoid(sigmoid(X . W1 + b1) . W2 + b2)] and nothing else: row by
    row, the sigmoid of the biased weighted sum of the two hidden
    sigmoids of the biased weighted sums of the inputs. *)
Theorem forward_pass_two_layers (X : Np.array) (w : weights) :
  well_shaped w -> Forall (fun r => length r = 2%nat) X ->
  final_output X w = composed_forward X w /\
  final_output X w
    = map (fun r => [row_output w (nth 0 r 0) (nth 1 r 0)]) X.
Proof.
  intros Hw HX. split; [reflexivity |].
  apply well_shaped_literal in Hw
    as (w11 & w12 & w21 & w22 & b11 & b12 & v1 & v2 & c & ->).
  unfold final_output, final_input, hidden_output, hidden_input.
  rewrite !sigmoid_arr_map. unfold Np.add, Np.broadcast.
  cbv [literal_weights W1 b1 W2 b2].
  rewrite !broadcast1_row. unfold Np.dot. rewrite !map_map.
  apply map_ext_in. intros r Hr.
  rewrite Forall_forall in HX. specialize (HX r Hr).
  destruct r as [| x1 [| x2 [| x3 r]]]; try discriminate.
  unfold row_output. np_eval.
  replace (x1 * w11 + (x2 * w21 + 0) + b11) with (x1 * w11 + x2 * w21 + b11)
    by ring.
  replace (x1 * w12 + (x2 * w22 + 0) + b12) with (x1 * w12 + x2 * w22 + b12)
    by ring.
  do 2 f_equal. ring.
Qed.

Lemma forward_pass_two_layers_witness :
  well_shaped w_sample /\ Forall (fun r => length r = 2%nat) Xf /\
  final_output Xf w_sample = composed_forward Xf w_sample /\
  final_output Xf w_sample
    = map (fun r => [row_output w_sample (nth 0 r 0) (nth 1 r 0)]) Xf.
Proof.
  assert (Hw : well_shaped w_sample).
  { unfold well_shaped, Np.has_shape. simpl. repeat split; repeat constructor. }
  assert (HX : Forall (fun r => length r = 2%nat) Xf).
  { unfold Xf, XorNumpy.X. simpl. repeat constructor. }
  split; [exact Hw |]. split; [exact HX |].
  exact (forward_pass_two_layers Xf w_sample Hw HX).
Defined.

(** Claim C7.  Applied to an activation, [sigmoid_derivative] gives the
    derivative of the sigmoid: at every [x] the derivative of [sigmoid]
    is [sigmoid_derivative (sigmoid x)].  As a function of the argument
    of the sigmoid it is not the derivative (at 0 it gives 0, the
    derivative is 1/4).  Both call sites of the backward pass pass it
    activations: entry by entry, [sigmoid_derivative(final_output)] and
    [sigmoid_derivative(hidden_output)] are the derivatives of the
    sigmoid at [final_input] and [hidden_input]. *)
Theorem sigmoid_derivative_on_activations :
  (forall x, derivable_pt_lim sigmoid x (sigmoid_derivative (sigmoid x))) /\
  ~ (forall x, derivable_pt_lim sigmoid x (sigmoid_derivative x)) /\
  (forall X y w,
      d_output X y w
      = Np.mul (error X y w)
               (sigmoid_derivative_arr (sigmoid_arr (final_input X w))) /\
      d_hidden X y w
      = Np.mul (Np.dot (d_output X y w) (Np.T (W2 w)))
               (sigmoid_derivative_arr (sigmoid_arr (hidden_input X w))) /\
      Forall2 (Forall2 (fun z d => derivable_pt_lim sigmoid z d))
              (final_input X w)
              (sigmoid_derivative_arr (final_output X w)) /\
      Forall2 (Forall2 (fun z d => derivable_pt_lim sigmoid z d))
              (hidden_input X w)
              (sigmoid_derivative_arr (hidden_output X w))).
Proof.
  split; [exact D_sigmoid |]. split.
  - intros H. specialize (H 0).
    pose proof (uniqueness_limite _ _ _ _ H (D_sigmoid 0)) as E.
    unfold sigmoid_derivative in E. rewrite sigmoid_0 in E. lra.
  - intros X y w. split; [reflexivity |]. split; [reflexivity |].
    unfold final_output, hidden_output.
    rewrite !sigmoid_derivative_arr_map, !sigmoid_arr_map, !map_map.
    split.
    + apply Forall2_map_self. intro r. rewrite map_map.
      apply Forall2_map_self. exact D_sigmoid.
    + apply Forall2_map_self. intro r. rewrite map_map.
      apply Forall2_map_self. exact D_sigmoid.
Qed.

(** The shapes the loop works on, at the notebook's data: the
    activations above are 4x2 and 4x1 arrays, and so is the
    [final_output] the 10000 epochs leave behind. *)
Lemma forward_shapes (w : weights) :
  well_shaped w ->
  Np.has_shape 4 2 (hidden_output Xf w) /\
  Np.has_shape 4 1 (final_output Xf w).
Proof.
  intros Hw.
  apply well_shaped_literal in Hw
    as (w11 & w12 & w21 & w22 & b11 & b12 & v1 & v2 & c & ->).
  unfold Np.has_shape, final_output, final_input, hidden_output,
    hidden_input.
  entrywise. np_eval. repeat split; repeat constructor.
Qed.

Lemma run_notebook_final_output (w0 : weights) :
  well_shaped w0 ->
  Np.has_shape 4 1 (final_output_var (run_notebook w0)) /\
  Np.all_entries (fun v => 0 < v < 1) (final_output_var (run_notebook w0)).
Proof.
  intros Hw. unfold run_notebook.
  replace epochs with (S (Z.to_nat 9999)) by (unfold epochs; lia).
  rewrite final_output_var_S. split.
  - apply forward_shapes. now apply training_loop_well_shaped.
  - unfold final_output. rewrite sigmoid_arr_map. apply all_entries_map.
    intro x. split; [apply sigmoid_pos | apply sigmoid_lt_1].
Qed.




End Claims.

(** ** Claims about the accuracy metrics *)

Module AccuracyClaims.
Import XorNumpy ArrayFacts.

Lemma accuracy_column (p1 p2 p3 p4 : R) (y1 y2 y3 y4 : Z) :
  accuracy [[p1]; [p2]; [p3]; [p4]] [[y1]; [y2]; [y3]; [y4]]
  = Sklearn.accuracy_score [[y1]; [y2]; [y3]; [y4]]
      (binary_predictions [[p1]; [p2]; [p3]; [p4]]).
Proof.
  unfold accuracy, predictions, binary_predictions, Sklearn.accuracy_score,
    Sklearn.column_or_1d, Np.mean_bool, Np.mean, Np.size, Np.eq_bool_int,
    Np.astype_int, Np.ge.
  cbv [Np.broadcast Np.broadcast1 Np.stretch Np.zip_with map length concat
       app repeat Nat.max].
  rewrite (Z.eqb_sym y1), (Z.eqb_sym y2), (Z.eqb_sym y3), (Z.eqb_sym y4).
  reflexivity.
Qed.

(** Claim C8.  On a 4x1 real output array and a 4x1 array of 0/1 labels
    the hand-rolled metric [np.mean((p >= 0.5) == y)] and
    [accuracy_score(y, (p >= 0.5).astype(int))] are the same number. *)
Theorem manual_accuracy_agrees_with_sklearn (p : Np.array) (yv : Np.iarray) :
  Np.has_shape 4 1 p -> Np.has_shape 4 1 yv ->
  Np.all_entries (fun z => z = 0%Z \/ z = 1%Z) yv ->
  accuracy p yv = Sklearn.accuracy_score yv (binary_predictions p).
Proof.
  intros Hp Hy _.
  apply shape_4_1 in Hp as (p1 & p2 & p3 & p4 & ->).
  apply shape_4_1 in Hy as (y1 & y2 & y3 & y4 & ->).
  apply accuracy_column.
Qed.

Lemma manual_accuracy_agrees_with_sklearn_witness :
  Np.has_shape 4 1 printed_final_output /\
  Np.has_shape 4 1 XorNumpy.y /\
  Np.all_entries (fun z => z = 0%Z \/ z = 1%Z) XorNumpy.y /\
  accuracy printed_final_output XorNumpy.y
  = Sklearn.accuracy_score XorNumpy.y
      (binary_predictions printed_final_output).
Proof.
  assert (Hp : Np.has_shape 4 1 printed_final_output).
  { unfold Np.has_shape, printed_final_output. simpl.
    split; [reflexivity | repeat constructor]. }
  assert (Hy : Np.has_shape 4 1 XorNumpy.y).
  { unfold Np.has_shape, XorNumpy.y. simpl.
    split; [reflexivity | repeat constructor]. }
  assert (H01 : Np.all_entries (fun z => z = 0%Z \/ z = 1%Z) XorNumpy.y).
  { unfold Np.all_entries, XorNumpy.y.
    repeat (apply Forall_cons || apply Forall_nil); auto. }
  split; [exact Hp |]. split; [exact Hy |]. split; [exact H01 |].
  exact (manual_accuracy_agrees_with_sklearn
           printed_final_output XorNumpy.y Hp Hy H01).
Defined.

Lemma geb_true (v c : R) : c <= v -> Np.geb v c = true.
Proof. intros H. unfold Np.geb. destruct (Rle_dec c v); tauto. Qed.

Lemma geb_false (v c : R) : v < c -> Np.geb v c = false.
Proof.
  intros H. unfold Np.geb. destruct (Rle_dec c v); [lra | reflexivity].
Qed.

(** The predictions the notebook printed threshold to the labels, and
    both metrics give 1 on them. *)
Lemma printed_run_accuracy :
  binary_predictions printed_final_output = XorNumpy.y /\
  accuracy printed_final_output XorNumpy.y = 1.
Proof.
  assert (E : Np.ge printed_final_output (5 / 10)
              = [[false]; [true]; [true]; [false]]).
  { unfold Np.ge, printed_final_output. cbn [map].
    rewrite (geb_false (1930908 / 100000000)) by lra.
    rewrite (geb_true (98334504 / 100000000)) by lra.
    rewrite (geb_true (98334712 / 100000000)) by lra.
    rewrite (geb_false (1718199 / 100000000)) by lra.
    reflexivity. }
  unfold accuracy, predictions, binary_predictions. rewrite E. split.
  - reflexivity.
  - unfold Np.mean_bool, Np.mean, Np.size, Np.eq_bool_int, XorNumpy.y.
    cbv [Np.broadcast Np.broadcast1 Np.stretch Np.zip_with map length concat
         app repeat Nat.max Z.eqb Pos.eqb Z.b2z Np.b2r Np.total fold_right].
    simpl INR. field.
Qed.

End AccuracyClaims.

(** ** Claims about the data sets and the notebooks *)

Module CorpusClaims.
Import Corpus Datasets.
Open Scope string_scope.

(** Claim C3, at the data set where it fails.  The first data cell of
    the ANN notebook labels the pair (1,0) with 0, where the exclusive-or
    is 1: its label vector is [0, 1, 0, 0].  The NumPy notebook and the
    [XORModel] cell of the same ANN notebook carry [0, 1, 1, 0]. *)
Theorem ann_first_cell_labels_are_not_xor :
  AnnTensorflow.y_train_data = [[0]; [1]; [0]; [0]]%Z /\
  map xor_label AnnTensorflow.X_train_data = [[0]; [1]; [1]; [0]]%Z /\
  nth 2 AnnTensorflow.X_train_data [] = [1; 0]%Z /\
  nth 2 AnnTensorflow.y_train_data [] = [0]%Z /\
  xor_label [1; 0]%Z = [1]%Z /\
  map fst on_four_pairs = [four_pairs; four_pairs; four_pairs] /\
  map labelled_with_xor on_four_pairs = [true; false; true].
Proof. repeat split. Qed.

(** Claim C4 fails on the NumPy notebook: it calls no library training
    routine, its training phase is the epoch loop written in the
    notebook. *)
Lemma numpy_notebook_breaks_pipeline :
  In xor_numpy corpus /\
  calls_library_training xor_numpy = false /\
  local_loop xor_numpy = true /\
  follows_pipeline xor_numpy = false /\
  forallb follows_pipeline corpus = false.
Proof. repeat split. left. reflexivity. Qed.

(** Claim C4, amended.  The RNN/LSTM, DNN and decision-tree notebooks,
    and only they, go through load data, build a model by library calls,
    call a library training routine and print a metric, in this order,
    without an epoch loop of their own.  The CNN notebook builds its
    model before it loads the data, then compiles it and calls the library
    routine; the clustering notebook loads, builds and fits; neither has
    a statement that prints a metric.  The NumPy and ANN notebooks call
    no library training routine and are the ones that contain an epoch
    loop written in the notebook. *)
Theorem pipeline_per_notebook :
  titles corpus
    = ["xor_numpy"; "cnn"; "rnn"; "ann"; "hierarchical"; "dnn";
       "decision_trees"] /\
  titles (filter follows_pipeline corpus) = ["rnn"; "dnn"; "decision_trees"] /\
  phases rnn
    = [LoadData; BuildModel; BuildModel; FitModel; PrintMetric;
       LoadData; BuildModel; BuildModel; FitModel; PrintMetric] /\
  phases dnn = [LoadData; BuildModel; BuildModel; FitModel; PrintMetric] /\
  phases decision_trees
    = [LoadData; BuildModel; FitModel;
       PrintMetric; PrintMetric; PrintMetric; PrintMetric] /\
  phases cnn = [BuildModel; LoadData; BuildModel; FitModel] /\
  phases hierarchical = [LoadData; BuildModel; FitModel] /\
  titles (filter calls_library_training corpus)
    = ["cnn"; "rnn"; "hierarchical"; "dnn"; "decision_trees"] /\
  titles (filter local_loop corpus) = ["xor_numpy"; "ann"] /\
  map calls_library_training corpus
    = map (fun nb => negb (local_loop nb)) corpus /\
  existsb (fun s => match s with For _ 10000 _ => true | _ => false end)
    (statements xor_numpy) = true /\
  existsb (fun s => match s with For _ 1000 _ => true | _ => false end)
    (statements ann) = true.
Proof. repeat split. Qed.

(** Claim C5 fails on the ANN notebook, which is not the NumPy
    notebook: it defines the class [XORModel] and trains it in a loop
    written in the notebook. *)
Lemma ann_notebook_has_class_and_loop :
  In ann corpus /\
  String.eqb (title ann) (title xor_numpy) = false /\
  local_class ann = true /\
  local_loop ann = true /\
  library_calls_only ann = false.
Proof. repeat split. simpl. auto 10. Qed.

(** Claim C5, amended.  Outside the NumPy notebook and the ANN notebook
    no notebook contains a loop or a class of its own.  The NumPy
    notebook contains a loop and no class; the ANN notebook contains
    both, the class [XORModel] derived from [tf.keras.Model] and the
    1000-epoch loop around its gradient step. *)
Theorem local_code_per_notebook :
  titles (filter (fun nb => negb (library_calls_only nb)) corpus)
    = ["xor_numpy"; "ann"] /\
  titles (filter library_calls_only corpus)
    = ["cnn"; "rnn"; "hierarchical"; "dnn"; "decision_trees"] /\
  local_loop xor_numpy = true /\ local_class xor_numpy = false /\
  local_loop ann = true /\ local_class ann = true /\
  existsb (fun s => match s with
                    | ClassDef "XORModel" "tf.keras.Model" _ => true
                    | _ => false
                    end) (statements ann) = true /\
  existsb (fun s => match s with For _ 1000 _ => true | _ => false end)
    (statements ann) = true.
Proof. repeat split. Qed.

End CorpusClaims.

(** ** Further properties of the hand-written network *)

Module LoopFacts.
Import XorNumpy Training ArrayFacts SigmoidFacts Backprop.

Lemma weights_after (X y : Np.array) (rate : R) (n : nat) (r : run) :
  weights_of (training_loop X y rate n r) = after X y rate n (weights_of r).
Proof.
  induction n as [| n IH]; [reflexivity |].
  rewrite training_loop_S. cbn [weights_of epoch_body]. rewrite IH.
  reflexivity.
Qed.

Lemma after_well_shaped (rate : R) (n : nat) (w0 : weights) :
  well_shaped w0 -> well_shaped (after Xf yf rate n w0).
Proof.
  intros Hw. induction n as [| n IH]; [exact Hw |].
  cbn [after Nat.iter]. now apply update_well_shaped.
Qed.

Lemma print_epochs_S (n : nat) :
  print_epochs (S n)
  = (print_epochs n ++ if (n mod 1000 =? 0)%nat then [n] else [])%list.
Proof.
  unfold print_epochs. rewrite seq_S, filter_app. cbn [filter Nat.add].
  reflexivity.
Qed.

Lemma printed_lines (X y : Np.array) (rate : R) (n : nat) (w0 : weights) :
  printed (training_loop X y rate n (start w0))
  = map (fun epoch => (epoch, loss X y (after X y rate epoch w0)))
        (print_epochs n).
Proof.
  induction n as [| n IH]; [reflexivity |].
  rewrite training_loop_S, print_epochs_S, map_app.
  cbn [printed epoch_body]. rewrite IH, weights_after. cbn [weights_of start].
  destruct (n mod 1000 =? 0)%nat; cbn [map]; [reflexivity |].
  now rewrite app_nil_r.
Qed.

Lemma sigmoid_lt (x y : R) : x < y -> sigmoid x < sigmoid y.
Proof.
  intros Hxy. unfold sigmoid, Rdiv. rewrite !Rmult_1_l.
  pose proof (exp_pos (- x)) as Hx. pose proof (exp_pos (- y)) as Hy.
  assert (Hexp : exp (- y) < exp (- x)) by (apply exp_increasing; lra).
  apply Rinv_lt_contravar; [| lra].
  apply Rmult_lt_0_compat; lra.
Qed.

Lemma geb_sigmoid (z : R) : Np.geb (sigmoid z) (5 / 10) = Np.geb z 0.
Proof.
  unfold Np.geb.
  destruct (Rle_dec (5 / 10) (sigmoid z)) as [Hs | Hs];
    destruct (Rle_dec 0 z) as [Hz | Hz]; try reflexivity; exfalso.
  - assert (Hlt : z < 0) by lra.
    apply sigmoid_lt in Hlt. rewrite sigmoid_0 in Hlt. lra.
  - apply Hs. destruct Hz as [Hz | <-].
    + apply sigmoid_lt in Hz. rewrite sigmoid_0 in Hz. lra.
    + rewrite sigmoid_0. lra.
Qed.

Lemma sigmoid_derivative_le (a : R) : sigmoid_derivative a <= 1 / 4.
Proof.
  unfold sigmoid_derivative.
  pose proof (Rle_0_sqr (a - 1 / 2)) as H. unfold Rsqr in H. nra.
Qed.

Lemma sigmoid_derivative_activation (x : R) :
  0 < sigmoid_derivative (sigmoid x) <= 1 / 4.
Proof.
  split; [| apply sigmoid_derivative_le].
  unfold sigmoid_derivative.
  pose proof (sigmoid_pos x). pose proof (sigmoid_lt_1 x). nra.
Qed.

Lemma final_output_unit (X : Np.array) (w : weights) :
  Np.all_entries (fun v => 0 < v < 1) (final_output X w).
Proof.
  unfold final_output. rewrite sigmoid_arr_map. apply all_entries_map.
  intro x. split; [apply sigmoid_pos | apply sigmoid_lt_1].
Qed.

Lemma yf_binary : Np.all_entries (fun a => a = 0 \/ a = 1) yf.
Proof.
  unfold yf, XorNumpy.y, Np.asfloat, Np.all_entries. simpl.
  repeat (apply Forall_cons || apply Forall_nil); auto.
Qed.

Lemma error_range (w : weights) :
  Np.all_entries (fun e => -1 < e < 1 /\ e <> 0) (error Xf yf w).
Proof.
  unfold error, Np.sub.
  apply (all_entries_broadcast Rminus (fun a => a = 0 \/ a = 1)
           (fun v => 0 < v < 1)); [| exact yf_binary | apply final_output_unit].
  intros a b [-> | ->] Hb; split; lra.
Qed.

Lemma total_nonneg (u : list R) : Forall (fun v => 0 <= v) u -> 0 <= Np.total u.
Proof.
  unfold Np.total. induction 1 as [| v u Hv _ IH]; simpl; lra.
Qed.

Lemma sum_squares_nonneg (M : Np.array) : 0 <= sum_squares M.
Proof.
  unfold sum_squares, Np.square. apply total_nonneg.
  apply Forall_concat. apply Forall_forall. intros r Hr.
  apply in_map_iff in Hr as [r' [<- _]].
  apply Forall_forall. intros v Hv. apply in_map_iff in Hv as [a [<- _]].
  nra.
Qed.

Lemma loss_range_literal (w : weights) :
  well_shaped w -> 0 < loss Xf yf w < 1.
Proof.
  intros Hw.
  pose proof (final_output_unit Xf w) as Hu.
  destruct (Claims.forward_shapes w Hw) as [_ Hs].
  apply shape_4_1 in Hs as (o1 & o2 & o3 & o4 & E).
  unfold loss, error. rewrite E in *. unfold Np.all_entries in Hu.
  inversion Hu as [| ? ? H1 Hu1]; subst. inversion Hu1 as [| ? ? H2 Hu2]; subst.
  inversion Hu2 as [| ? ? H3 Hu3]; subst. inversion Hu3 as [| ? ? H4 _]; subst.
  inversion H1 as [| ? ? B1 _]; inversion H2 as [| ? ? B2 _];
    inversion H3 as [| ? ? B3 _]; inversion H4 as [| ? ? B4 _]; subst.
  np_eval. replace (INR 4) with 4 by (simpl; ring).
  split.
  - apply Rdiv_lt_0_compat; [nra | lra].
  - apply (Rmult_lt_reg_r 4); [lra |].
    unfold Rdiv. rewrite Rmult_assoc, Rinv_l by lra. nra.
Qed.

Lemma grad_shapes (w : weights) (q : parameter) :
  well_shaped w -> Np.has_shape (rows q) (cols q) (grad Xf yf q w).
Proof.
  intros Hw.
  apply well_shaped_literal in Hw
    as (w11 & w12 & w21 & w22 & b11 & b12 & v1 & v2 & c & ->).
  unfold Np.has_shape.
  destruct q; unfold_network; entrywise; np_eval;
    repeat split; repeat constructor.
Qed.

End LoopFacts.

Module Extras.
Import XorNumpy Training ArrayFacts SigmoidFacts Backprop LoopFacts.

Lemma w_sample_well_shaped : well_shaped w_sample.
Proof.
  unfold well_shaped, Np.has_shape. simpl. repeat split; repeat constructor.
Qed.

Lemma zero_weights_well_shaped : well_shaped zero_weights.
Proof.
  unfold well_shaped, Np.has_shape. simpl. repeat split; repeat constructor.
Qed.

(** X1.  At the weights of every epoch each gradient array has the shape
    of the parameter it is added to, so the four in-place updates never
    broadcast; the deltas have one row per training sample. *)
Theorem gradients_have_parameter_shapes
    (rate : R) (n : nat) (w0 : weights) (q : parameter) :
  well_shaped w0 ->
  Np.has_shape (rows q) (cols q)
    (grad Xf yf q (weights_of (training_loop Xf yf rate n (start w0)))) /\
  Np.has_shape (rows q) (cols q)
    (get q (weights_of (training_loop Xf yf rate (S n) (start w0)))) /\
  Np.has_shape 4 output_size
    (d_output Xf yf (weights_of (training_loop Xf yf rate n (start w0)))) /\
  Np.has_shape 4 hidden_size
    (d_hidden Xf yf (weights_of (training_loop Xf yf rate n (start w0)))).
Proof.
  intros Hw.
  pose proof (training_loop_well_shaped rate n w0 Hw) as Hn.
  rewrite training_loop_S. cbn [weights_of epoch_body].
  apply well_shaped_literal in Hn
    as (w11 & w12 & w21 & w22 & b11 & b12 & v1 & v2 & c & ->).
  unfold Np.has_shape.
  destruct q; unfold_network; entrywise; np_eval;
    repeat split; repeat constructor.
Qed.

Lemma gradients_have_parameter_shapes_witness :
  well_shaped w_sample /\
  Np.has_shape (rows P_W1) (cols P_W1)
    (grad Xf yf P_W1
       (weights_of (training_loop Xf yf learning_rate 3 (start w_sample)))).
Proof.
  split; [exact w_sample_well_shaped |].
  exact (proj1 (gradients_have_parameter_shapes learning_rate 3 w_sample P_W1
                  w_sample_well_shaped)).
Defined.

(** X2.  In exact real arithmetic the mean squared error the loop
    computes is strictly between 0 and 1 at the weights of every epoch,
    started from weights of the notebook's shapes. *)
Theorem loss_strictly_between_0_and_1 (rate : R) (n : nat) (w0 : weights) :
  well_shaped w0 ->
  0 < loss Xf yf (weights_of (training_loop Xf yf rate n (start w0))) < 1.
Proof.
  intros Hw. apply loss_range_literal. now apply training_loop_well_shaped.
Qed.

Lemma loss_strictly_between_0_and_1_witness :
  well_shaped w_sample /\
  0 < loss Xf yf
        (weights_of (training_loop Xf yf learning_rate 2 (start w_sample))) < 1.
Proof.
  split; [exact w_sample_well_shaped |].
  exact (loss_strictly_between_0_and_1 learning_rate 2 w_sample
           w_sample_well_shaped).
Defined.

(** X3.  The loop prints a line at the epochs divisible by 1000 and at
    no other: the 10000 epochs of the notebook print ten lines, at
    epochs 0, 1000, ..., 9000, and the loss on the line of an epoch is
    the loss of the weights that epoch started from. *)
Theorem printed_lines_every_1000_epochs :
  (forall w0, map fst (printed (run_notebook w0))
              = map (fun k => (k * 1000)%nat) (seq 0 10)) /\
  (forall X y rate n w0,
      printed (training_loop X y rate n (start w0))
      = map (fun epoch => (epoch, loss X y (after X y rate epoch w0)))
            (print_epochs n)).
Proof.
  split; [| exact printed_lines].
  intro w0. unfold run_notebook. rewrite printed_lines, map_map.
  cbn [fst]. rewrite map_id. vm_compute. reflexivity.
Qed.

(** X6.  Thresholding the output at 0.5 is thresholding the
    pre-activation at 0: a sample is predicted 1 exactly when its
    [final_input] is not negative, the tie at 0 going to 1. *)
Theorem prediction_is_sign_of_final_input (X : Np.array) (w : weights) :
  predictions (final_output X w) = Np.ge (final_input X w) 0.
Proof.
  unfold predictions, final_output, Np.ge. rewrite sigmoid_arr_map, map_map.
  apply map_ext. intro r. rewrite map_map. apply map_ext. exact geb_sigmoid.
Qed.

(** X7.  The sigmoid is point-symmetric about (0, 1/2), and its
    derivative written on activations is even. *)
Theorem sigmoid_reflection (x : R) :
  sigmoid (- x) = 1 - sigmoid x /\
  sigmoid_derivative (sigmoid (- x)) = sigmoid_derivative (sigmoid x).
Proof.
  assert (E : sigmoid (- x) = 1 - sigmoid x).
  { unfold sigmoid. rewrite Ropp_involutive, exp_Ropp.
    pose proof (exp_pos x). field. split; lra. }
  split; [exact E |]. rewrite E. unfold sigmoid_derivative. ring.
Qed.

(** X8.  Over the reals, in exact arithmetic, the sigmoid is strictly
    increasing. *)
Theorem sigmoid_strictly_increasing (x y : R) :
  x < y -> sigmoid x < sigmoid y.
Proof. exact (sigmoid_lt x y). Qed.

Lemma sigmoid_strictly_increasing_witness : 0 < 1 /\ sigmoid 0 < sigmoid 1.
Proof.
  assert (H : 0 < 1) by lra.
  split; [exact H | exact (sigmoid_strictly_increasing 0 1 H)].
Defined.

(** X9.  In exact real arithmetic [sigmoid_derivative] never exceeds 1/4
    and is positive on activations; hence, at the weights of every epoch
    started from weights of the notebook's shapes, every entry of the 4x1
    [d_output] lies strictly between -1/4 and 1/4 and none is zero. *)
Theorem output_deltas_are_bounded (rate : R) (n : nat) (w0 : weights) :
  well_shaped w0 ->
  (forall a, sigmoid_derivative a <= 1 / 4) /\
  (forall x, 0 < sigmoid_derivative (sigmoid x)) /\
  Np.has_shape 4 1
    (d_output Xf yf (weights_of (training_loop Xf yf rate n (start w0)))) /\
  Np.all_entries (fun d => - (1 / 4) < d < 1 / 4 /\ d <> 0)
    (d_output Xf yf (weights_of (training_loop Xf yf rate n (start w0)))).
Proof.
  intros Hw0.
  split; [exact sigmoid_derivative_le |].
  split; [intro x; apply sigmoid_derivative_activation |].
  pose proof (training_loop_well_shaped rate n w0 Hw0) as Hw.
  set (w := weights_of (training_loop Xf yf rate n (start w0))) in *.
  split.
  { apply well_shaped_literal in Hw
      as (w11 & w12 & w21 & w22 & b11 & b12 & v1 & v2 & c & ->).
    unfold Np.has_shape. unfold_network. entrywise. np_eval.
    split; [reflexivity | repeat constructor]. }
  unfold d_output, Np.mul.
  apply (all_entries_broadcast Rmult (fun e => -1 < e < 1 /\ e <> 0)
           (fun s => 0 < s <= 1 / 4)).
  - intros e s [He Hne] Hs. split; [nra |].
    intro H0. apply Rmult_integral in H0 as [-> | ->]; [now apply Hne | lra].
  - apply error_range.
  - unfold final_output.
    rewrite sigmoid_derivative_arr_map, sigmoid_arr_map, map_map.
    unfold Np.all_entries. apply Forall_forall. intros r Hr.
    apply in_map_iff in Hr as [r' [<- _]]. rewrite map_map.
    apply Forall_forall. intros s Hs. apply in_map_iff in Hs as [z [<- _]].
    apply sigmoid_derivative_activation.
Qed.

Lemma output_deltas_are_bounded_witness :
  well_shaped w_sample /\
  Np.all_entries (fun d => - (1 / 4) < d < 1 / 4 /\ d <> 0)
    (d_output Xf yf
       (weights_of (training_loop Xf yf learning_rate 2 (start w_sample)))).
Proof.
  split; [exact w_sample_well_shaped |].
  exact (proj2 (proj2 (proj2
           (output_deltas_are_bounded learning_rate 2 w_sample
              w_sample_well_shaped)))).
Defined.

Lemma accuracy_literal (p1 p2 p3 p4 : R) (y1 y2 y3 y4 : Z) :
  accuracy [[p1]; [p2]; [p3]; [p4]] [[y1]; [y2]; [y3]; [y4]]
  = (Np.b2r (Z.b2z (Np.geb p1 (5 / 10)) =? y1)%Z
     + Np.b2r (Z.b2z (Np.geb p2 (5 / 10)) =? y2)%Z
     + Np.b2r (Z.b2z (Np.geb p3 (5 / 10)) =? y3)%Z
     + Np.b2r (Z.b2z (Np.geb p4 (5 / 10)) =? y4)%Z) / 4.
Proof.
  unfold accuracy, predictions, Np.mean_bool, Np.mean, Np.size,
    Np.eq_bool_int, Np.ge.
  cbv [Np.broadcast Np.broadcast1 Np.stretch Np.zip_with map length concat
       app repeat Nat.max Np.total fold_right].
  replace (INR 4) with 4 by (simpl; ring). field.
Qed.

(** X10.  On 4x1 arrays the accuracy lies between 0 and 1, and it is 1
    exactly when the thresholded outputs are the label array. *)
Theorem full_accuracy_iff_predictions_are_labels
    (p : Np.array) (yv : Np.iarray) :
  Np.has_shape 4 1 p -> Np.has_shape 4 1 yv ->
  0 <= accuracy p yv <= 1 /\
  (accuracy p yv = 1 <-> binary_predictions p = yv).
Proof.
  intros Hp Hy.
  apply shape_4_1 in Hp as (p1 & p2 & p3 & p4 & ->).
  apply shape_4_1 in Hy as (y1 & y2 & y3 & y4 & ->).
  rewrite accuracy_literal.
  unfold binary_predictions, Np.astype_int, Np.ge. cbn [map].
  destruct (Z.eqb_spec (Z.b2z (Np.geb p1 (5 / 10))) y1) as [E1 | N1];
    destruct (Z.eqb_spec (Z.b2z (Np.geb p2 (5 / 10))) y2) as [E2 | N2];
    destruct (Z.eqb_spec (Z.b2z (Np.geb p3 (5 / 10))) y3) as [E3 | N3];
    destruct (Z.eqb_spec (Z.b2z (Np.geb p4 (5 / 10))) y4) as [E4 | N4];
    cbn [Np.b2r];
    (split; [lra |]);
    (split; intro H;
     [ try (exfalso; lra); congruence
     | try lra; exfalso; injection H; intros; congruence ]).
Qed.

Lemma full_accuracy_iff_predictions_are_labels_witness :
  Np.has_shape 4 1 p_sample /\ Np.has_shape 4 1 XorNumpy.y /\
  0 <= accuracy p_sample XorNumpy.y <= 1.
Proof.
  assert (Hp : Np.has_shape 4 1 p_sample).
  { unfold Np.has_shape, p_sample. simpl.
    split; [reflexivity | repeat constructor]. }
  assert (Hy : Np.has_shape 4 1 XorNumpy.y).
  { unfold Np.has_shape, XorNumpy.y. simpl.
    split; [reflexivity | repeat constructor]. }
  split; [exact Hp |]. split; [exact Hy |].
  exact (proj1 (full_accuracy_iff_predictions_are_labels
                  p_sample XorNumpy.y Hp Hy)).
Defined.

Lemma update_keeps_symmetry (rate : R) (w : weights) :
  well_shaped w -> symmetric_hidden w ->
  symmetric_hidden (update Xf yf rate w).
Proof.
  intros Hw.
  apply well_shaped_literal in Hw
    as (w11 & w12 & w21 & w22 & b11 & b12 & v1 & v2 & c & ->).
  unfold symmetric_hidden. cbv [literal_weights W1 b1 W2 Np.entry nth].
  intros (<- & <- & <- & <-).
  fold (literal_weights w11 w11 w21 w21 b11 b11 v1 v1 c).
  unfold_network. entrywise. np_eval.
  repeat split; reflexivity.
Qed.

(** X11.  Hidden units that start with the same weights keep the same
    weights through every epoch: the updates never tell them apart. *)
Theorem equal_hidden_units_stay_equal (rate : R) (n : nat) (w0 : weights) :
  well_shaped w0 -> symmetric_hidden w0 ->
  symmetric_hidden (weights_of (training_loop Xf yf rate n (start w0))).
Proof.
  intros Hw Hs. rewrite weights_after. cbn [weights_of start].
  induction n as [| n IH]; [exact Hs |].
  cbn [after Nat.iter]. apply update_keeps_symmetry; [| exact IH].
  now apply after_well_shaped.
Qed.

Lemma w_symmetric_well_shaped : well_shaped w_symmetric.
Proof.
  unfold well_shaped, Np.has_shape. simpl. repeat split; repeat constructor.
Qed.

Lemma w_symmetric_symmetric : symmetric_hidden w_symmetric.
Proof. unfold symmetric_hidden. simpl. repeat split; reflexivity. Qed.

(** At [w_symmetric] the first update already moves the hidden weights. *)
Lemma w_symmetric_moves :
  Np.entry
    (W1 (weights_of (training_loop Xf yf learning_rate 1 (start w_symmetric))))
    0 0
  <> Np.entry (W1 w_symmetric) 0 0.
Proof.
  rewrite training_loop_S. cbn [training_loop seq fold_left weights_of
                                 epoch_body start].
  unfold w_symmetric. unfold_network. entrywise. np_eval.
  repeat match goal with
         | |- context [sigmoid ?a] =>
             tryif constr_eq a 0 then fail else (replace a with 0 by ring)
         end.
  rewrite sigmoid_0.
  repeat match goal with
         | |- context [sigmoid ?a] =>
             tryif constr_eq a 1 then fail else (replace a with 1 by field)
         end.
  pose proof (sigmoid_lt 0 1 ltac:(lra)) as Hlo. rewrite sigmoid_0 in Hlo.
  pose proof (sigmoid_lt_1 1) as Hhi.
  unfold sigmoid_derivative, learning_rate.
  assert (Hq : 0 < sigmoid 1 * (1 - sigmoid 1) * (2 * sigmoid 1 - 1)).
  { apply Rmult_lt_0_compat; [apply Rmult_lt_0_compat |]; lra. }
  intro H. lra.
Qed.

Lemma equal_hidden_units_stay_equal_witness :
  well_shaped w_symmetric /\ symmetric_hidden w_symmetric /\
  symmetric_hidden
    (weights_of (training_loop Xf yf learning_rate 5 (start w_symmetric))) /\
  Np.entry
    (W1 (weights_of (training_loop Xf yf learning_rate 1 (start w_symmetric))))
    0 0
  <> Np.entry (W1 w_symmetric) 0 0.
Proof.
  pose proof w_symmetric_well_shaped as Hw.
  split; [exact Hw |]. split; [exact w_symmetric_symmetric |].
  split; [| exact w_symmetric_moves].
  exact (equal_hidden_units_stay_equal learning_rate 5 w_symmetric Hw
           w_symmetric_symmetric).
Defined.

Lemma descent_literal (w11 w12 w21 w22 b11 b12 v1 v2 c : R) :
  derivable_pt_lim
    (fun rate =>
       loss Xf yf
         (update Xf yf rate
            (literal_weights w11 w12 w21 w22 b11 b12 v1 v2 c)))
    0
    (- grad_norm2 Xf yf (literal_weights w11 w12 w21 w22 b11 b12 v1 v2 c) / 2).
Proof.
  unfold grad_norm2, sum_squares. unfold_network.
  eapply D_val.
  - eapply D_ext.
    + intro t. symmetry. entrywise. np_eval. unfold sigmoid_derivative.
      reflexivity.
    + differentiate.
  - entrywise. np_eval. cbv beta. unfold sigmoid_derivative.
    replace (INR 4) with 4 by (simpl; ring).
    rewrite !Rmult_0_l, !Rplus_0_r, !Rplus_0_l, !Rmult_1_l, !Rminus_0_l.
    field.
Qed.

Lemma update_rate_0 (w : weights) :
  well_shaped w -> update Xf yf 0 w = w.
Proof.
  intros Hw.
  apply well_shaped_literal in Hw
    as (w11 & w12 & w21 & w22 & b11 & b12 & v1 & v2 & c & ->).
  unfold_network. entrywise. np_eval. unfold literal_weights.
  repeat f_equal; ring.
Qed.

(** X12.  The update direction is a descent direction: as a function of
    the learning rate, the loss after one update has, at rate 0, the
    derivative minus one half of the squared length of the gradient
    arrays, which is never positive; at rate 0 the update changes
    nothing. *)
Theorem update_is_a_descent_direction (w : weights) :
  well_shaped w ->
  derivable_pt_lim (fun rate => loss Xf yf (update Xf yf rate w)) 0
    (- grad_norm2 Xf yf w / 2) /\
  - grad_norm2 Xf yf w / 2 <= 0 /\
  update Xf yf 0 w = w.
Proof.
  intros Hw. split; [| split; [| now apply update_rate_0]].
  - apply well_shaped_literal in Hw
      as (w11 & w12 & w21 & w22 & b11 & b12 & v1 & v2 & c & ->).
    apply descent_literal.
  - unfold grad_norm2.
    pose proof (sum_squares_nonneg (W1_grad Xf yf w)).
    pose proof (sum_squares_nonneg (b1_grad Xf yf w)).
    pose proof (sum_squares_nonneg (W2_grad Xf yf w)).
    pose proof (sum_squares_nonneg (b2_grad Xf yf w)).
    lra.
Qed.

Lemma update_is_a_descent_direction_witness :
  well_shaped w_sample /\
  derivable_pt_lim (fun rate => loss Xf yf (update Xf yf rate w_sample)) 0
    (- grad_norm2 Xf yf w_sample / 2).
Proof.
  pose proof w_sample_well_shaped as Hw.
  split; [exact Hw |].
  exact (proj1 (update_is_a_descent_direction w_sample Hw)).
Defined.

Lemma zero_gradients_literal (rate w11 w12 w21 w22 b11 b12 v1 v2 c : R) :
  grad_norm2 Xf yf (literal_weights w11 w12 w21 w22 b11 b12 v1 v2 c) = 0 ->
  update Xf yf rate (literal_weights w11 w12 w21 w22 b11 b12 v1 v2 c)
  = literal_weights w11 w12 w21 w22 b11 b12 v1 v2 c.
Proof.
  set (w := literal_weights w11 w12 w21 w22 b11 b12 v1 v2 c).
  assert (Hw : well_shaped w).
  { unfold well_shaped, Np.has_shape. simpl.
    repeat split; repeat constructor. }
  pose proof (grad_shapes w P_W1 Hw) as S1.
  pose proof (grad_shapes w P_b1 Hw) as S2.
  pose proof (grad_shapes w P_W2 Hw) as S3.
  pose proof (grad_shapes w P_b2 Hw) as S4.
  cbv [grad rows cols input_size hidden_size output_size] in S1, S2, S3, S4.
  apply shape_2_2 in S1 as (g11 & g12 & g21 & g22 & E1).
  apply shape_1_2 in S2 as (h1 & h2 & E2).
  apply shape_2_1 in S3 as (k1 & k2 & E3).
  apply shape_1_1 in S4 as (k & E4).
  unfold grad_norm2, update. rewrite E1, E2, E3, E4.
  unfold sum_squares. subst w. np_eval. intros H0.
  pose proof (Rle_0_sqr g11) as Q1. pose proof (Rle_0_sqr g12) as Q2.
  pose proof (Rle_0_sqr g21) as Q3. pose proof (Rle_0_sqr g22) as Q4.
  pose proof (Rle_0_sqr h1) as Q5. pose proof (Rle_0_sqr h2) as Q6.
  pose proof (Rle_0_sqr k1) as Q7. pose proof (Rle_0_sqr k2) as Q8.
  pose proof (Rle_0_sqr k) as Q9. unfold Rsqr in *.
  assert (Z1 : g11 = 0) by (apply Rsqr_0_uniq; unfold Rsqr; lra).
  assert (Z2 : g12 = 0) by (apply Rsqr_0_uniq; unfold Rsqr; lra).
  assert (Z3 : g21 = 0) by (apply Rsqr_0_uniq; unfold Rsqr; lra).
  assert (Z4 : g22 = 0) by (apply Rsqr_0_uniq; unfold Rsqr; lra).
  assert (Z5 : h1 = 0) by (apply Rsqr_0_uniq; unfold Rsqr; lra).
  assert (Z6 : h2 = 0) by (apply Rsqr_0_uniq; unfold Rsqr; lra).
  assert (Z7 : k1 = 0) by (apply Rsqr_0_uniq; unfold Rsqr; lra).
  assert (Z8 : k2 = 0) by (apply Rsqr_0_uniq; unfold Rsqr; lra).
  assert (Z9 : k = 0) by (apply Rsqr_0_uniq; unfold Rsqr; lra).
  subst. repeat f_equal; ring.
Qed.

(** X13.  Weights at which all four gradient arrays vanish are never
    moved by the loop, whatever the learning rate and the number of
    epochs. *)
Theorem stationary_weights_never_move (rate : R) (n : nat) (w : weights) :
  well_shaped w -> grad_norm2 Xf yf w = 0 ->
  weights_of (training_loop Xf yf rate n (start w)) = w.
Proof.
  intros Hw H0. rewrite weights_after. cbn [weights_of start].
  assert (Hu : update Xf yf rate w = w).
  { apply well_shaped_literal in Hw
      as (w11 & w12 & w21 & w22 & b11 & b12 & v1 & v2 & c & ->).
    now apply zero_gradients_literal. }
  induction n as [| n IH]; [reflexivity |].
  change (after Xf yf rate (S n) w)
    with (update Xf yf rate (after Xf yf rate n w)).
  rewrite IH. exact Hu.
Qed.

Lemma zero_weights_stationary : grad_norm2 Xf yf zero_weights = 0.
Proof.
  unfold grad_norm2, sum_squares, zero_weights. unfold_network.
  entrywise. np_eval.
  repeat match goal with
         | |- context [sigmoid ?a] =>
             tryif constr_eq a 0 then fail else (replace a with 0 by ring)
         end.
  rewrite sigmoid_0. unfold sigmoid_derivative. field.
Qed.

(** All-zero initial weights are such a point: the loop leaves them
    at zero. *)
Lemma stationary_weights_never_move_witness :
  well_shaped zero_weights /\ grad_norm2 Xf yf zero_weights = 0 /\
  weights_of (training_loop Xf yf learning_rate 7 (start zero_weights))
  = zero_weights.
Proof.
  pose proof zero_weights_well_shaped as Hw.
  split; [exact Hw |]. split; [exact zero_weights_stationary |].
  exact (stationary_weights_never_move learning_rate 7 zero_weights Hw
           zero_weights_stationary).
Defined.

End Extras.
